(** * sbscorer.flipside.FlipsideApi: adaptive batch extraction

    A shallow embedding of [src/sbscorer/flipside/FlipsideApi.py].

    - Python [int] is [Z]; [//] and [divmod] are floor division, which is
      what [Z.div] and [Z.modulo] compute for a non-zero divisor.
    - A [pandas.DataFrame] of transactions is the list of its rows, in
      order; [df.shape] is the tuple (rows, columns).
    - Code that prints, queries the service, touches the file system, raises
      or loops lives in the monad [M]: a world is threaded through, an
      outcome is a value, an exception, or exhausted fuel. Fuel bounds the
      iterations of the one [while] loop; the nesting of the two mutually
      recursive methods is bounded by the recursion limit of the
      interpreter, after which [RecursionError] is raised.
    - The query service ([ShroomDK]) is an external collaborator: a
      transition function on an abstract service state, given as a section
      variable. *)

From Stdlib Require Import ZArith List String Ascii Lia Bool.
From stdpp Require Import gmap strings list fin_maps pretty.

Local Open Scope string_scope.
Local Open Scope list_scope.
Local Open Scope Z_scope.

(** ** Python values and built-ins *)

(** The exceptions the module can meet. All of them are subclasses of
    Python's [Exception], so [except Exception] catches every one. *)
Inductive exn : Type :=
| Exception (msg : string)
| ValueError (msg : string)
| ZeroDivisionError (msg : string)
| UnboundLocalError (var : string)
| RecursionError (msg : string)
| ServiceError (cls msg : string).

Inductive Result (A : Type) : Type :=
| Ok (a : A)
| Err (e : exn).
Arguments Ok {A} a.
Arguments Err {A} e.

(** Values compared by [==] where the operands have different Python
    types: an [int] and a [tuple] of ints. *)
Inductive pyval : Type :=
| PyInt (n : Z)
| PyTuple (items : list Z).

Definition py_eq (a b : pyval) : bool :=
  match a, b with
  | PyInt x, PyInt y => x =? y
  | PyTuple xs, PyTuple ys => bool_decide (xs = ys)
  | _, _ => false
  end.

(** [divmod(a, b)] *)
Definition py_divmod (a b : Z) : Result (Z * Z) :=
  if b =? 0 then Err (ZeroDivisionError "integer division or modulo by zero")
  else Ok (a / b, a mod b).

(** [range(n)] *)
Definition py_range (n : Z) : list Z :=
  map Z.of_nat (seq 0 (Z.to_nat n)).

(** [l[start:stop]]: a negative index counts from the end, and both ends
    are clamped to the list. *)
Definition slice_index (len i : Z) : Z :=
  if i <? 0 then Z.max 0 (i + len) else Z.min i len.

Definition py_slice {A : Type} (l : list A) (start stop : Z) : list A :=
  let len := Z.of_nat (length l) in
  let lo := slice_index len start in
  let hi := slice_index len stop in
  firstn (Z.to_nat (hi - lo)) (skipn (Z.to_nat lo) l).

(** [s[:-1]] on a string *)
Fixpoint drop_last (s : string) : string :=
  match s with
  | EmptyString => EmptyString
  | String c EmptyString => EmptyString
  | String c rest => String c (drop_last rest)
  end.

(** [os.path.join(a, b)] of [posixpath] for two components. *)
Definition starts_with_slash (s : string) : bool :=
  match s with
  | String c _ => Ascii.eqb c "/"%char
  | EmptyString => false
  end.

Fixpoint ends_with_slash (s : string) : bool :=
  match s with
  | EmptyString => false
  | String c EmptyString => Ascii.eqb c "/"%char
  | String _ rest => ends_with_slash rest
  end.

Definition os_path_join (a b : string) : string :=
  if starts_with_slash b then b
  else if (String.eqb a "" || ends_with_slash a)%bool then a +:+ b
  else a +:+ "/" +:+ b.

(** ** Data model *)

(** One record of a transactions query (the columns the six queries
    select; gnosis has no native-value column). *)
Record Row : Type := mkRow {
  tx_hash : string;
  block_timestamp : string;
  from_address : string;
  to_address : string;
  gas_limit : Z;
  gas_used : Z;
  tx_fee : string;
  native_value : option string
}.

Definition DataFrame : Type := list Row.

(** [pd.DataFrame(records)] and [pd.DataFrame()]. The columns of a frame
    are not kept: the frame without rows stands for every frame without
    rows, with or without columns, and the access to a column, which
    Python refuses on a frame without columns, always succeeds here. *)
Definition pd_DataFrame (records : list Row) : DataFrame := records.
Definition pd_DataFrame_empty : DataFrame := [].

Definition nrows (df : DataFrame) : Z := Z.of_nat (length df).

Definition ncols (df : DataFrame) : Z :=
  match df with
  | [] => 0
  | r :: _ => match native_value r with Some _ => 8 | None => 7 end
  end.

(** [df.shape] and [df.shape[0]] *)
Definition shape (df : DataFrame) : pyval := PyTuple [nrows df; ncols df].
Definition shape0 (df : DataFrame) : Z := nrows df.

(** [pd.concat(list_df)]: pandas refuses an empty list of frames. *)
Definition pd_concat (list_df : list DataFrame) : Result DataFrame :=
  match list_df with
  | [] => Err (ValueError "No objects to concatenate")
  | _ => Ok (concat list_df)
  end.

(** ** The object and its configuration *)

Record FlipsideApi : Type := mkFlipsideApi {
  api_key : string;
  PAGE_SIZE : Z;
  TIMEOUT_MINUTES : Z;
  PAGE_NUMBER : Z;
  MAX_ADDRESS : Z;
  TTL_MINUTES : Z;
  CACHED : bool;
  RETRY_INTERVAL_SECONDS : Z
}.

(** [__init__]: the attributes are the arguments ([self.sdk], built from
    the key, is the service below). *)
Definition __init__ (api_key : string) (page_size timeout_minutes page_number
    max_address ttl : Z) (cached : bool) (retry_interval : Z) : FlipsideApi :=
  {| api_key := api_key; PAGE_SIZE := page_size; TIMEOUT_MINUTES := timeout_minutes;
     PAGE_NUMBER := page_number; MAX_ADDRESS := max_address; TTL_MINUTES := ttl;
     CACHED := cached; RETRY_INTERVAL_SECONDS := retry_interval |}.

(** [FlipsideApi(api_key)], every other argument at its default. *)
Definition init (api_key : string) : FlipsideApi :=
  __init__ api_key 100000 4 1 100 60 true 1.

(** [self.MAX_ROWS]: [__init__] assigns the literal, it is not a
    parameter of the constructor. *)
Definition MAX_ROWS (self : FlipsideApi) : Z := 1000000.

(** The keyword arguments of one [sdk.query] call. *)
Record QueryCall : Type := mkQueryCall {
  q_sql : string;
  q_page_size : Z;
  q_page_number : Z;
  q_timeout_minutes : Z;
  q_ttl_minutes : Z;
  q_cached : bool;
  q_retry_interval_seconds : Z
}.

Record QueryResultSet : Type := mkQueryResultSet {
  records : list Row
}.

(** ** Observable effects *)

(** One constructor per effectful statement of the source: the [print]
    calls (by source line), the call to the service, and the two file
    system writes of [save_csv]. *)
Inductive Event : Type :=
| PrintExtractingNetwork (network : string)
| PrintBatchRange (start_index end_index : Z)
| PrintRetryRange (start_index end_index : Z)
| PrintRetrying
| PrintTruncationWarning
| PrintExn (e : exn)
| PrintSql (sql : string)
| SdkQuery (call : QueryCall)
| Makedirs (path : string)
| ToCsv (path : string) (df : DataFrame).

Section Service.

(** The query service: its state, and what one [query] call does to the
    state and answers (an exception or a result set). *)
Context {Svc : Type}.
Variable sdk_query : Svc -> QueryCall -> Svc * Result QueryResultSet.

Record World : Type := mkWorld {
  sdk : Svc;
  trace : list Event;
  dirs : gset string;
  files : gmap string DataFrame
}.

Inductive Outcome (A : Type) : Type :=
| Done (a : A) (w : World)
| Raised (e : exn) (w : World)
| OutOfFuel.
Arguments Done {A} a w.
Arguments Raised {A} e w.
Arguments OutOfFuel {A}.

Definition M (A : Type) : Type := World -> Outcome A.

#[global] Instance M_ret : MRet M := fun A a w => Done a w.
#[global] Instance M_bind : MBind M := fun A B f m w =>
  match m w with
  | Done a w' => f a w'
  | Raised e w' => Raised e w'
  | OutOfFuel => OutOfFuel
  end.

Definition raise {A : Type} (e : exn) : M A := fun w => Raised e w.
Definition out_of_fuel {A : Type} : M A := fun _ => OutOfFuel.

Definition lift {A : Type} (r : Result A) : M A :=
  match r with
  | Ok a => mret a
  | Err e => raise e
  end.

(** [try: body except Exception as e: handler(e)] *)
Definition try_except {A : Type} (body : M A) (handler : exn -> M A) : M A :=
  fun w =>
    match body w with
    | Raised e w' => handler e w'
    | other => other
    end.

(** A statement with an observable effect appends its event to the trace. *)
Definition log_event (ev : Event) (w : World) : World :=
  {| sdk := sdk w; trace := trace w ++ [ev]; dirs := dirs w; files := files w |}.

Definition emit (ev : Event) : M unit := fun w => Done tt (log_event ev w).

(** [for x in xs: body(x)] *)
Fixpoint for_each {A : Type} (xs : list A) (body : A -> M unit) : M unit :=
  match xs with
  | [] => mret tt
  | x :: rest => body x;; for_each rest body
  end.

(** [self.sdk.query(...)] *)
Definition sdk_call (call : QueryCall) : M QueryResultSet := fun w =>
  let '(s', r) := sdk_query (sdk w) call in
  let w' := {| sdk := s'; trace := trace w ++ [SdkQuery call];
               dirs := dirs w; files := files w |} in
  match r with
  | Ok rs => Done rs w'
  | Err e => Raised e w'
  end.

(** [os.path.exists], [os.makedirs], [df.to_csv(path, index=False)]: the
    persistence collaborator at its interface, where creating a directory
    and writing a file succeed. [dirs] records the directories asked for;
    the parents that [os.makedirs] creates on the way and the refusals of
    the file system (an empty path, a missing parent of the file) are not
    modelled. *)
Definition os_path_exists (path : string) : M bool := fun w =>
  Done (bool_decide (path ∈ dirs w) || bool_decide (is_Some (files w !! path)))%bool w.

Definition os_makedirs (path : string) : M unit := fun w =>
  Done tt {| sdk := sdk w; trace := trace w ++ [Makedirs path];
             dirs := {[path]} ∪ dirs w; files := files w |}.

Definition to_csv (df : DataFrame) (path : string) : M unit := fun w =>
  Done tt {| sdk := sdk w; trace := trace w ++ [ToCsv path df];
             dirs := dirs w; files := <[path := df]> (files w) |}.

(** ** [save_csv] *)
Definition save_csv (df : DataFrame) (path_to_export csv_file : string) : M unit :=
  ex ← os_path_exists path_to_export;
  (if negb ex then os_makedirs path_to_export else mret tt);;
  to_csv df csv_file.

(** ** Page Fetcher: [execute_query_page] *)
Definition query_call (self : FlipsideApi) (sql : string) (page_number : Z) : QueryCall :=
  {| q_sql := sql; q_page_size := PAGE_SIZE self; q_page_number := page_number;
     q_timeout_minutes := TIMEOUT_MINUTES self; q_ttl_minutes := TTL_MINUTES self;
     q_cached := CACHED self;
     q_retry_interval_seconds := RETRY_INTERVAL_SECONDS self |}.

(** The [return] inside the handler leaves the function: the handler
    yields the frame to return ([inl]), the body the result set ([inr]). *)
Definition execute_query_page (self : FlipsideApi) (sql : string) (page_number : Z)
  : M DataFrame :=
  r ← try_except
        (query_result_set ← sdk_call (query_call self sql page_number);
         mret (inr query_result_set))
        (fun e => emit (PrintExn e);; emit (PrintSql sql);;
                  mret (inl pd_DataFrame_empty));
  match r with
  | inl df => mret df
  | inr query_result_set => mret (pd_DataFrame (records query_result_set))
  end.

(** ** Paginator: [execute_query] *)

(** The [while df_size == self.PAGE_SIZE] loop; one unit of fuel per
    iteration. *)
Fixpoint execute_query_loop (fuel : nat) (self : FlipsideApi) (sql : string)
    (df_size page_number : Z) (list_df : list DataFrame) : M (list DataFrame) :=
  if df_size =? PAGE_SIZE self then
    match fuel with
    | O => out_of_fuel
    | S fuel' =>
        df ← execute_query_page self sql page_number;
        execute_query_loop fuel' self sql (shape0 df) (page_number + 1) (list_df ++ [df])
    end
  else mret list_df.

Definition execute_query (fuel : nat) (self : FlipsideApi) (sql : string) : M DataFrame :=
  list_df ← execute_query_loop fuel self sql (PAGE_SIZE self) 1 [];
  df ← lift (pd_concat list_df);
  (if shape0 df =? MAX_ROWS self then emit PrintTruncationWarning else mret tt);;
  mret df.

(** ** Query text *)

(** [get_string_address]: every address wrapped in [LOWER('...')] and
    followed by a comma, then the last character of the whole dropped. *)
Definition get_string_address (array_address : list string) : string :=
  let lower_str :=
    fold_left (fun acc add => acc +:+ "LOWER('" +:+ add +:+ "'),") array_address "" in
  drop_last lower_str.

Definition newline : string := String (ascii_of_nat 10) EmptyString.

(** [f"LIMIT {limit}"] when [limit != 0], else the empty string *)
Definition string_limit (limit : Z) : string :=
  if negb (limit =? 0) then "LIMIT " +:+ pretty limit else "".

(** The triple-quoted f-string of a query: a newline, then every line at
    the indentation of the source followed by a newline, then the
    indentation before the closing quotes. *)
Definition sql_text (indent : string) (lines : list string) : string :=
  newline +:+ fold_right (fun l acc => indent +:+ l +:+ newline +:+ acc) indent lines.

Definition indent16 : string := "                ".
Definition indent20 : string := "                    ".

(** The text shared by the six transaction queries: the selected columns
    (the native-value column, if any, last), the table, the two [IN]
    clauses and the limit. *)
Definition transactions_sql (indent : string) (value_column : option string)
    (table : string) (array_address : list string) (limit : Z) : string :=
  let str_list_add := get_string_address array_address in
  sql_text indent
    (["SELECT TX_HASH,"; "BLOCK_TIMESTAMP,"; "FROM_ADDRESS,"; "TO_ADDRESS,";
      "GAS_LIMIT,"; "GAS_USED,"]
     ++ match value_column with
        | Some c => ["TX_FEE,"; c]
        | None => ["TX_FEE"]
        end
     ++ ["FROM " +:+ table;
         "WHERE FROM_ADDRESS IN (" +:+ str_list_add +:+ ")";
         "OR TO_ADDRESS IN (" +:+ str_list_add +:+ ")";
         string_limit limit +:+ ";"]).

Definition get_eth_transactions_sql_query (self : FlipsideApi)
    (array_address : list string) (limit : Z) : string :=
  transactions_sql indent16 (Some "ETH_VALUE") "ethereum.core.fact_transactions"
    array_address limit.

Definition get_polygon_transactions_sql_query (self : FlipsideApi)
    (array_address : list string) (limit : Z) : string :=
  transactions_sql indent16 (Some "MATIC_VALUE") "polygon.core.fact_transactions"
    array_address limit.

Definition get_arbitrum_transactions_sql_query (self : FlipsideApi)
    (array_address : list string) (limit : Z) : string :=
  transactions_sql indent16 (Some "ETH_VALUE") "arbitrum.core.fact_transactions"
    array_address limit.

Definition get_avalanche_transactions_sql_query (self : FlipsideApi)
    (array_address : list string) (limit : Z) : string :=
  transactions_sql indent16 (Some "AVAX_VALUE") "avalanche.core.fact_transactions"
    array_address limit.

Definition get_gnosis_transactions_sql_query (self : FlipsideApi)
    (array_address : list string) (limit : Z) : string :=
  transactions_sql indent20 None "gnosis.core.fact_transactions"
    array_address limit.

Definition get_optimism_transactions_sql_query (self : FlipsideApi)
    (array_address : list string) (limit : Z) : string :=
  transactions_sql indent20 (Some "ETH_VALUE") "optimism.core.fact_transactions"
    array_address limit.

(** [get_cross_chain_info_sql_query]. [table_name] is a local that only
    two of the three branches assign; the third branch builds an
    exception object and drops it (there is no [raise]). Reading an
    unassigned local raises [UnboundLocalError]. *)
Definition read_local (name : string) (value : option string) : Result string :=
  match value with
  | Some v => Ok v
  | None => Err (UnboundLocalError name)
  end.

Definition get_cross_chain_info_sql_query (self : FlipsideApi)
    (array_address : list string) (info_type : string) (limit : Z) : Result string :=
  let str_list_add := get_string_address array_address in
  let table_name : option string :=
    if String.eqb info_type "label" then Some "crosschain.address_labels"
    else if String.eqb info_type "tag" then Some "crosschain.address_tags"
    else let _ := Exception "Invalid info type" in None in
  let string_limit := string_limit limit in
  match read_local "table_name" table_name with
  | Err e => Err e
  | Ok table_name =>
      Ok (sql_text indent16
            ["SELECT *";
             "FROM " +:+ table_name;
             "WHERE ADDRESS IN (" +:+ str_list_add +:+ ")";
             string_limit +:+ ";"])
  end.

(** ** [get_transactions] *)

(** Lines 102 to 115: the query text of the network, or the exception for
    a network outside the six. *)
Definition get_transactions_sql (self : FlipsideApi)
    (array_address : list string) (network : string) : Result string :=
  if String.eqb network "ethereum" then
    Ok (get_eth_transactions_sql_query self array_address 0)
  else if String.eqb network "polygon" then
    Ok (get_polygon_transactions_sql_query self array_address 0)
  else if String.eqb network "arbitrum" then
    Ok (get_arbitrum_transactions_sql_query self array_address 0)
  else if String.eqb network "avalanche" then
    Ok (get_avalanche_transactions_sql_query self array_address 0)
  else if String.eqb network "gnosis" then
    Ok (get_gnosis_transactions_sql_query self array_address 0)
  else if String.eqb network "optimism" then
    Ok (get_optimism_transactions_sql_query self array_address 0)
  else Err (Exception "Network not supported").

Definition get_transactions (fuel : nat) (self : FlipsideApi)
    (array_address : list string) (network : string) : M DataFrame :=
  sql ← lift (get_transactions_sql self array_address network);
  df ← execute_query fuel self sql;
  mret df.

(** ** Address Partitioner: [export_address] *)

(** [df[np.logical_or(df.from_address == address, df.to_address == address)]] *)
Definition select_address (df : DataFrame) (address : string) : DataFrame :=
  List.filter (fun r => String.eqb (from_address r) address
                        || String.eqb (to_address r) address)%bool df.

(** The body of the [for address in np_address] loop. *)
Definition export_one (df : DataFrame) (extract_dir network address : string) : M unit :=
  let df_address_transactions := select_address df address in
  let path_to_export := os_path_join extract_dir network in
  let csv_file := os_path_join path_to_export (address +:+ "_tx.csv") in
  if 0 <? shape0 df_address_transactions then
    save_csv df_address_transactions path_to_export csv_file
  else mret tt.

Definition export_address (df : DataFrame) (np_address : list string)
    (extract_dir network : string) : M unit :=
  for_each np_address (export_one df extract_dir network).

(** ** Range Splitter: [extract_transactions_rec] and
    [extract_transactions_between_rec]

    The two methods call each other, and nothing in them bounds the
    nesting: the interpreter does. [depth] is the number of nested calls
    of the two methods that the recursion limit of the interpreter still
    leaves room for (1000 frames in all by default); a call made when no
    room is left raises [RecursionError] instead of running the method.
    No [try] stands between the two methods and the caller, so the
    exception goes up to the caller. [fuel] is the fuel of each run of the
    Paginator. *)
Definition recursion_error : exn :=
  RecursionError "maximum recursion depth exceeded".

Fixpoint extract_transactions_rec (depth fuel : nat) (self : FlipsideApi)
    (array_address : list string) (start_index end_index : Z)
    (network extract_dir : string) {struct depth} : M unit :=
  match depth with
  | O => raise recursion_error
  | S depth' =>
      let end_first_slice := (start_index + end_index) / 2 in
      emit PrintRetrying;;
      extract_transactions_between_rec depth' fuel self array_address
        start_index end_first_slice network extract_dir;;
      extract_transactions_between_rec depth' fuel self array_address
        end_first_slice end_index network extract_dir
  end
with extract_transactions_between_rec (depth fuel : nat) (self : FlipsideApi)
    (array_address : list string) (start_index end_index : Z)
    (network extract_dir : string) {struct depth} : M unit :=
  match depth with
  | O => raise recursion_error
  | S depth' =>
      emit (PrintRetryRange start_index end_index);;
      df ← get_transactions fuel self (py_slice array_address start_index end_index) network;
      if shape0 df =? 0 then
        emit PrintRetrying;;
        extract_transactions_rec depth' fuel self array_address start_index end_index
          network extract_dir
      else
        export_address df (py_slice array_address start_index end_index)
          extract_dir network
  end.

(** ** Batch Extractor: [extract_transactions_net] *)

(** Lines 94 to 99: what is done with the frame of a batch. *)
Definition route_batch (depth fuel : nat) (self : FlipsideApi) (extract_dir : string)
    (array_address : list string) (network : string) (start_index end_index : Z)
    (df : DataFrame) : M unit :=
  if (shape0 df =? 0) || py_eq (shape df) (PyInt (MAX_ROWS self)) then
    extract_transactions_rec depth fuel self array_address start_index end_index
      network extract_dir
  else
    export_address df (py_slice array_address start_index end_index)
      extract_dir network.

(** The body of the [for i in range(q)] loop. *)
Definition extract_batch (depth fuel : nat) (self : FlipsideApi) (extract_dir : string)
    (array_address : list string) (network : string) (i : Z) : M unit :=
  let start_index := i * MAX_ADDRESS self in
  let end_index := (i + 1) * MAX_ADDRESS self in
  emit (PrintBatchRange start_index end_index);;
  df ← get_transactions fuel self (py_slice array_address start_index end_index) network;
  route_batch depth fuel self extract_dir array_address network start_index end_index df.

Definition extract_transactions_net (depth fuel : nat) (self : FlipsideApi)
    (extract_dir : string) (array_address : list string) (network : string) : M unit :=
  emit (PrintExtractingNetwork network);;
  let len_address := Z.of_nat (length array_address) in
  qr ← lift (py_divmod len_address (MAX_ADDRESS self));
  let q := if negb (snd qr =? 0) then fst qr + 1 else fst qr in
  for_each (py_range q) (extract_batch depth fuel self extract_dir array_address network).

(** ** [extract_transactions] *)
Definition extract_transactions (depth fuel : nat) (self : FlipsideApi)
    (extract_dir : string) (array_address : list string) : M unit :=
  let list_network :=
    ["ethereum"; "polygon"; "arbitrum"; "avalanche"; "gnosis"; "optimism"] in
  for_each list_network
    (fun network =>
       extract_transactions_net depth fuel self extract_dir array_address network).

(** ** Vocabulary of the statements *)

(** The pages [p], [p+1], ... of a query as the Page Fetcher returns them
    when it is called [n] times in a row from world [w], and the world
    after the last call. *)
Fixpoint fetch_pages (n : nat) (self : FlipsideApi) (sql : string) (p : Z)
    (w : World) : list DataFrame * World :=
  match n with
  | O => ([], w)
  | S n' =>
      match execute_query_page self sql p w with
      | Done df w1 =>
          let '(rest, w2) := fetch_pages n' self sql (p + 1) w1 in
          (df :: rest, w2)
      | _ => ([], w)
      end
  end.

(** The world after the loop body for one address, from the world before. *)
Definition exported (df : DataFrame) (extract_dir network address : string)
    (w : World) : World :=
  let sel := select_address df address in
  let path_to_export := os_path_join extract_dir network in
  let csv_file := os_path_join path_to_export (address +:+ "_tx.csv") in
  let existed :=
    (bool_decide (path_to_export ∈ dirs w)
     || bool_decide (is_Some (files w !! path_to_export)))%bool in
  match sel with
  | [] => w
  | _ :: _ =>
      {| sdk := sdk w;
         trace := trace w ++ (if existed then [] else [Makedirs path_to_export])
                          ++ [ToCsv csv_file sel];
         dirs := if existed then dirs w else {[path_to_export]} ∪ dirs w;
         files := <[csv_file := sel]> (files w) |}
  end.

(** The number of batches: the quotient of [divmod], plus one when the
    remainder is not zero. *)
Definition batch_count (len_address max_address : Z) : Z :=
  if negb (len_address mod max_address =? 0)
  then len_address / max_address + 1 else len_address / max_address.

(** The service never answers any query with a row. *)
Definition never_rows : Prop :=
  forall st call,
    match snd (sdk_query st call) with
    | Ok rs => records rs = []
    | Err _ => True
    end.

(** The service never answers the query [sql] with a row: every call
    with this text fails or returns no record. *)
Definition empty_for (sql : string) : Prop :=
  forall st call,
    q_sql call = sql ->
    match snd (sdk_query st call) with
    | Ok rs => records rs = []
    | Err _ => True
    end.

End Service.

Arguments Done {Svc A} a w.
Arguments Raised {Svc A} e w.
Arguments OutOfFuel {Svc A}.

(** The calls to the service recorded in a trace, in order. *)
Definition sdk_calls (t : list Event) : list QueryCall :=
  flat_map (fun ev => match ev with SdkQuery c => [c] | _ => [] end) t.

(** The files written in a trace, in order. *)
Definition csv_writes (t : list Event) : list string :=
  flat_map (fun ev => match ev with ToCsv p _ => [p] | _ => [] end) t.

Definition supported_network (network : string) : Prop :=
  In network ["ethereum"; "polygon"; "arbitrum"; "avalanche"; "gnosis"; "optimism"].

(** ** Sample services and data for the examples *)

Definition sample_row (sender receiver : string) : Row :=
  {| tx_hash := "0x01"; block_timestamp := "2023-01-01 00:00:00.000";
     from_address := sender; to_address := receiver;
     gas_limit := 21000; gas_used := 21000; tx_fee := "0.0004";
     native_value := Some "1.5" |}.

(** An object with a page size of 2 and one address per batch. *)
Definition small_api : FlipsideApi := __init__ "key" 2 4 1 1 60 true 1.

(** A stateless service that answers page [k] of any query with the
    [k]-th entry of a fixed list, and with no record past its end. *)
Definition paged_service (pages : list (Result QueryResultSet))
  : unit -> QueryCall -> unit * Result QueryResultSet :=
  fun _ call =>
    (tt, nth (Z.to_nat (q_page_number call - 1)) pages (Ok {| records := [] |})).

Definition empty_service : unit -> QueryCall -> unit * Result QueryResultSet :=
  paged_service [].

(** A service with rows for every query but the one of the address
    [0xbbb] alone on ethereum. *)
Definition lonely_service : unit -> QueryCall -> unit * Result QueryResultSet :=
  fun _ call =>
    if String.eqb (q_sql call) (get_eth_transactions_sql_query (init "key") ["0xbbb"] 0)
    then (tt, Ok {| records := [] |})
    else (tt, Ok {| records := [sample_row "0xaaa" "0xccc"] |}).

Definition failing_service : unit -> QueryCall -> unit * Result QueryResultSet :=
  fun _ _ => (tt, Err (ServiceError "QueryRunTimeoutError" "query timed out")).

Definition three_rows_service : unit -> QueryCall -> unit * Result QueryResultSet :=
  paged_service
    [Ok {| records := [sample_row "0xaaa" "0xbbb"; sample_row "0xbbb" "0xaaa"] |};
     Ok {| records := [sample_row "0xaaa" "0xccc"] |}].

Definition empty_world : @World unit :=
  {| sdk := tt; trace := []; dirs := ∅; files := ∅ |}.

(** What the Paginator returns from [three_rows_service] for a page size
    of 2: the three rows, after the calls for pages 1 and 2. *)
Definition three_rows_frame : DataFrame :=
  [sample_row "0xaaa" "0xbbb"; sample_row "0xbbb" "0xaaa"; sample_row "0xaaa" "0xccc"].

Definition three_rows_world : @World unit :=
  {| sdk := tt;
     trace := [SdkQuery (query_call small_api "q" 1); SdkQuery (query_call small_api "q" 2)];
     dirs := ∅; files := ∅ |}.

(** A frame of exactly one million rows. *)
Definition capped_frame : DataFrame :=
  repeat (sample_row "0xaaa" "0xbbb") (Z.to_nat 1000000).

(** ** More vocabulary and sample services *)

(** The batch ranges printed in a trace (line 90), in order. *)
Definition printed_batch_ranges (t : list Event) : list (Z * Z) :=
  flat_map (fun ev => match ev with PrintBatchRange a b => [(a, b)] | _ => [] end) t.

(** The retry ranges printed in a trace (line 161), in order. *)
Definition printed_retry_ranges (t : list Event) : list (Z * Z) :=
  flat_map (fun ev => match ev with PrintRetryRange a b => [(a, b)] | _ => [] end) t.

(** A full page of the default page size, and a service that answers the
    first ten pages of any query with it and the following ones with no
    record: 1,000,000 rows in all. *)
Definition full_page : DataFrame :=
  repeat (sample_row "0xaaa" "0xbbb") (Z.to_nat 100000).

Definition capped_service : unit -> QueryCall -> unit * Result QueryResultSet :=
  paged_service (repeat (Ok {| records := full_page |}) 10).

(** The eleven pages the Paginator gets from it, and the world after the
    eleven calls. *)
Definition capped_pages : list DataFrame := repeat full_page 10 ++ [[]].

Definition capped_world : @World unit :=
  {| sdk := tt;
     trace := map (fun k => SdkQuery (query_call (init "key") "q" (Z.of_nat k))) (seq 1 11);
     dirs := ∅; files := ∅ |}.

(** From [w] to [w'] the trace has grown, by events that are not the
    print of a batch range. *)
Definition prints_no_batch_range {Svc : Type} (w w' : @World Svc) : Prop :=
  exists new, trace w' = trace w ++ new /\ printed_batch_ranges new = [].

(** The files written in a trace with what was written, in order. *)
Definition csv_write_events (t : list Event) : list (string * DataFrame) :=
  flat_map (fun ev => match ev with ToCsv p d => [(p, d)] | _ => [] end) t.

(** The file of an address: [csv_file] of [export_address]. *)
Definition csv_path (extract_dir network address : string) : string :=
  os_path_join (os_path_join extract_dir network) (address +:+ "_tx.csv").

(** One address as it stands in the query text. *)
Definition lower_literal (address : string) : string :=
  "LOWER('" +:+ address +:+ "')".

(** The file system of [w'] extends the one of [w] by files of the given
    addresses only: no directory and no file of [w] is gone, and every
    path that is not the file of one of the addresses, on any network,
    holds what it held. *)
Definition fs_extends {Svc : Type} (extract_dir : string) (array_address : list string)
    (w w' : @World Svc) : Prop :=
  dirs w ⊆ dirs w' /\
  (forall p, is_Some (files w !! p) -> is_Some (files w' !! p)) /\
  (forall p,
     (forall network address,
        In address array_address -> p <> csv_path extract_dir network address) ->
     files w' !! p = files w !! p).

(** A service whose every page has two rows. *)
Definition two_rows_service : unit -> QueryCall -> unit * Result QueryResultSet :=
  fun _ _ =>
    (tt, Ok {| records := [sample_row "0xaaa" "0xbbb"; sample_row "0xbbb" "0xaaa"] |}).

(** A service whose every page has one row. *)
Definition one_row_service : unit -> QueryCall -> unit * Result QueryResultSet :=
  fun _ _ => (tt, Ok {| records := [sample_row "0xaaa" "0xccc"] |}).

(** A service with a row for every query but the one of no address at
    all on ethereum. *)
Definition no_address_service : unit -> QueryCall -> unit * Result QueryResultSet :=
  fun _ call =>
    if String.eqb (q_sql call) (get_eth_transactions_sql_query (init "key") [] 0)
    then (tt, Ok {| records := [] |})
    else (tt, Ok {| records := [sample_row "0xaaa" "0xccc"] |}).

(** * Properties *)

(** ** The model on small inputs *)

Example py_divmod_floor :
  py_divmod 7 3 = Ok (2, 1) /\ py_divmod (-7) 3 = Ok (-3, 2) /\
  py_divmod 7 0 = Err (ZeroDivisionError "integer division or modulo by zero").
Proof. repeat split. Qed.

Example py_slice_clamps :
  py_slice [1; 2; 3; 4; 5] 2 100 = [3; 4; 5] /\
  py_slice [1; 2; 3; 4; 5] (-2) 100 = [4; 5] /\
  py_slice [1; 2; 3; 4; 5] 7 9 = [].
Proof. repeat split. Qed.

Example os_path_join_examples :
  os_path_join "out" "ethereum" = "out/ethereum" /\
  os_path_join "out/" "ethereum" = "out/ethereum" /\
  os_path_join "out/ethereum" "0xaaa_tx.csv" = "out/ethereum/0xaaa_tx.csv".
Proof. repeat split. Qed.

Example get_string_address_two :
  get_string_address ["0xA"; "0xB"] = "LOWER('0xA'),LOWER('0xB')".
Proof. reflexivity. Qed.

Example get_gnosis_transactions_sql_query_text :
  get_gnosis_transactions_sql_query (init "key") ["0xA"] 5 =
"
                    SELECT TX_HASH,
                    BLOCK_TIMESTAMP,
                    FROM_ADDRESS,
                    TO_ADDRESS,
                    GAS_LIMIT,
                    GAS_USED,
                    TX_FEE
                    FROM gnosis.core.fact_transactions
                    WHERE FROM_ADDRESS IN (LOWER('0xA'))
                    OR TO_ADDRESS IN (LOWER('0xA'))
                    LIMIT 5;
                    ".
Proof. reflexivity. Qed.

Example get_cross_chain_info_sql_query_tag :
  get_cross_chain_info_sql_query (init "key") ["0xA"] "tag" 0 =
  Ok "
                SELECT *
                FROM crosschain.address_tags
                WHERE ADDRESS IN (LOWER('0xA'))
                ;
                ".
Proof. reflexivity. Qed.

Example shape_is_a_tuple :
  shape three_rows_frame = PyTuple [3; 8] /\
  py_eq (shape three_rows_frame) (PyInt 3) = false /\
  py_eq (PyInt (shape0 three_rows_frame)) (PyInt 3) = true.
Proof. repeat split. Qed.

(** One batch per address; the first address has rows, the second none of
    the rows returned for it. *)
Example extract_transactions_net_run_example :
  exists w',
    extract_transactions_net three_rows_service 3 4 small_api "out" ["0xaaa"; "0xddd"]
      "ethereum" empty_world = Done tt w' /\
    files w' !! "out/ethereum/0xaaa_tx.csv" = Some three_rows_frame /\
    files w' !! "out/ethereum/0xddd_tx.csv" = None /\
    csv_writes (trace w') = ["out/ethereum/0xaaa_tx.csv"].
Proof. eexists. split; [vm_compute; reflexivity|]. repeat split. Qed.

Example unsupported_network_raises :
  exists w',
    extract_transactions_net three_rows_service 3 4 small_api "out" ["0xaaa"]
      "bitcoin" empty_world = Raised (Exception "Network not supported") w'.
Proof. eexists. vm_compute. reflexivity. Qed.

(** A failing service gives empty pages: the batch goes to the Range
    Splitter, which retries until the recursion limit. *)
Example failing_service_retries :
  exists w',
    extract_transactions_net failing_service 30 1 small_api "out" ["0xaaa"]
      "ethereum" empty_world = Raised recursion_error w' /\
    length (sdk_calls (trace w')) = 16%nat.
Proof. eexists. split; [vm_compute; reflexivity|]. vm_compute. reflexivity. Qed.

Section Properties.

Context {Svc : Type}.
Variable sdk_query : Svc -> QueryCall -> Svc * Result QueryResultSet.

Implicit Types (w : @World Svc) (self : FlipsideApi) (df : DataFrame).

Lemma bind_run {A B : Type} (m : M A) (f : A -> M B) w :
  (m ≫= f) w =
  match m w with
  | Done a w' => f a w'
  | Raised e w' => Raised e w'
  | OutOfFuel => OutOfFuel
  end.
Proof. reflexivity. Qed.

(** Run the monad's plumbing. *)
Ltac run :=
  repeat (unfold mbind, M_bind, mret, M_ret, emit, raise, out_of_fuel, lift,
            log_event; cbn [sdk trace dirs files fst snd]).

(** ** Page Fetcher *)

(** What one call of the Page Fetcher does, by the answer of the service. *)
Lemma execute_query_page_run self sql page_number w :
  execute_query_page sdk_query self sql page_number w =
  let call := query_call self sql page_number in
  let after := sdk_query (sdk w) call in
  match snd after with
  | Ok rs =>
      Done (pd_DataFrame (records rs))
        {| sdk := fst after; trace := trace w ++ [SdkQuery call];
           dirs := dirs w; files := files w |}
  | Err e =>
      Done pd_DataFrame_empty
        {| sdk := fst after;
           trace := trace w ++ [SdkQuery call; PrintExn e; PrintSql sql];
           dirs := dirs w; files := files w |}
  end.
Proof.
  unfold execute_query_page, try_except, sdk_call. run.
  destruct (sdk_query (sdk w) (query_call self sql page_number)) as [s' [rs|e]];
    run; rewrite <- ?app_assoc; reflexivity.
Qed.

(** A page fetch returns, extends the trace by its own events (no
    truncation warning, no file write) and leaves the file system alone. *)
Lemma execute_query_page_done self sql page_number w :
  exists df w' new,
    execute_query_page sdk_query self sql page_number w = Done df w' /\
    trace w' = trace w ++ new /\
    sdk_calls new = [query_call self sql page_number] /\
    ~ In PrintTruncationWarning new /\
    dirs w' = dirs w /\ files w' = files w.
Proof.
  rewrite execute_query_page_run. cbv zeta.
  destruct (snd (sdk_query (sdk w) (query_call self sql page_number))) as [rs|e].
  - eexists _, _, _. split; [reflexivity|]. cbn. repeat split; auto.
    intros [H|[]]; discriminate.
  - eexists _, _, _. split; [reflexivity|]. cbn. repeat split; auto.
    intros [H|[H|[H|[]]]]; discriminate.
Qed.

(** C4: the Page Fetcher never raises. Whatever the service does, the call
    returns a frame: when the query client fails with [e], the empty frame,
    after printing [e] and the query text; when it succeeds, the frame of
    the records of the result set, with nothing printed. *)
Theorem execute_query_page_never_raises self sql page_number w :
  let call := query_call self sql page_number in
  let after := sdk_query (sdk w) call in
  (exists df w', execute_query_page sdk_query self sql page_number w = Done df w') /\
  (forall e w', execute_query_page sdk_query self sql page_number w <> Raised e w') /\
  match snd after with
  | Ok rs =>
      execute_query_page sdk_query self sql page_number w =
      Done (pd_DataFrame (records rs))
        {| sdk := fst after; trace := trace w ++ [SdkQuery call];
           dirs := dirs w; files := files w |}
  | Err e =>
      execute_query_page sdk_query self sql page_number w =
      Done pd_DataFrame_empty
        {| sdk := fst after;
           trace := trace w ++ [SdkQuery call; PrintExn e; PrintSql sql];
           dirs := dirs w; files := files w |}
  end.
Proof.
  cbv zeta. rewrite execute_query_page_run. cbv zeta.
  destruct (snd (sdk_query (sdk w) (query_call self sql page_number))) as [rs|e];
    (split; [eauto | split; [intros ? ? ?; discriminate | reflexivity]]).
Qed.

(** ** Paginator *)

Lemma sdk_calls_app t1 t2 : sdk_calls (t1 ++ t2) = sdk_calls t1 ++ sdk_calls t2.
Proof. unfold sdk_calls. apply flat_map_app. Qed.

Lemma fetch_pages_S n self sql p w :
  fetch_pages sdk_query (S n) self sql p w =
  match execute_query_page sdk_query self sql p w with
  | Done df w1 =>
      let '(rest, w2) := fetch_pages sdk_query n self sql (p + 1) w1 in
      (df :: rest, w2)
  | _ => ([], w)
  end.
Proof. reflexivity. Qed.

(** Fetching [n] pages in a row from page [p]: [n] frames, the calls for
    pages [p], [p + 1], ..., in this order, and an untouched file system. *)
Lemma fetch_pages_trace n : forall self sql p w pages wN,
  fetch_pages sdk_query n self sql p w = (pages, wN) ->
  length pages = n /\
  exists new,
    trace wN = trace w ++ new /\
    sdk_calls new = map (fun k => query_call self sql (p + Z.of_nat k)) (seq 0 n) /\
    ~ In PrintTruncationWarning new /\
    dirs wN = dirs w /\ files wN = files w.
Proof.
  induction n as [|n IH]; intros self sql p w pages wN Hf;
    [cbn in Hf | rewrite fetch_pages_S in Hf].
  - inversion Hf; subst. split; [reflexivity|]. exists []. rewrite app_nil_r. auto.
  - destruct (execute_query_page_done self sql p w)
      as (df & w1 & new1 & Hrun & Ht1 & Hc1 & Hw1 & Hd1 & Hf1).
    rewrite Hrun in Hf.
    destruct (fetch_pages sdk_query n self sql (p + 1) w1) as [rest w2] eqn:Hrest.
    inversion Hf; subst. apply IH in Hrest.
    destruct Hrest as (Hlen & new2 & Ht2 & Hc2 & Hw2 & Hd2 & Hf2).
    split; [cbn; congruence|].
    exists (new1 ++ new2). repeat split.
    + rewrite Ht2, Ht1, app_assoc. reflexivity.
    + rewrite sdk_calls_app, Hc1, Hc2. cbn [seq map app].
      rewrite Z.add_0_r. f_equal. rewrite <- seq_shift, map_map.
      apply map_ext. intros k. f_equal. lia.
    + rewrite in_app_iff. tauto.
    + congruence.
    + congruence.
Qed.

(** The loop of the Paginator against the pages it meets: while the pages
    are full it goes on, at the first page that is not full it stops, and
    what it has accumulated is the pages in the order fetched. *)
Lemma execute_query_loop_fetch n : forall self sql p w acc pages wN fuel,
  fetch_pages sdk_query (S n) self sql p w = (pages, wN) ->
  (forall k df, (k < n)%nat -> pages !! k = Some df -> nrows df = PAGE_SIZE self) ->
  (forall df, pages !! n = Some df -> nrows df <> PAGE_SIZE self) ->
  (n < fuel)%nat ->
  execute_query_loop sdk_query fuel self sql (PAGE_SIZE self) p acc w =
  Done (acc ++ pages) wN.
Proof.
  induction n as [|n IH]; intros self sql p w acc pages wN fuel Hf Hfull Hlast Hfuel;
    (destruct fuel as [|fuel]; [lia|]);
    cbn [execute_query_loop]; rewrite Z.eqb_refl, bind_run;
    rewrite fetch_pages_S in Hf;
    destruct (execute_query_page_done self sql p w) as (df & w1 & new1 & Hrun & _);
    rewrite Hrun in Hf; rewrite Hrun.
  - cbn in Hf. inversion Hf; subst.
    specialize (Hlast df eq_refl).
    destruct fuel; cbn [execute_query_loop]; unfold shape0;
      (destruct (nrows df =? PAGE_SIZE self) eqn:E; [apply Z.eqb_eq in E; contradiction|]);
      reflexivity.
  - destruct (fetch_pages sdk_query (S n) self sql (p + 1) w1) as [rest w2] eqn:Hrest.
    inversion Hf; subst.
    unfold shape0. rewrite (Hfull 0%nat df) by (cbn; first [lia | reflexivity]).
    rewrite (IH self sql (p + 1) w1 (acc ++ [df]) rest wN fuel Hrest).
    + rewrite <- app_assoc. reflexivity.
    + intros k d Hk Hd. apply (Hfull (S k) d); [lia | exact Hd].
    + intros d Hd. apply Hlast. exact Hd.
    + lia.
Qed.

(** C3: the Paginator fetches page 1, 2, ... of the same query, goes on
    exactly while the page just fetched has [PAGE_SIZE] rows, and stops at
    the first page whose row count differs (in particular a short page,
    an empty one included). With pages 1 to N full and page N + 1 not
    full, and fuel for N + 1 iterations, it returns: the result is the
    concatenation of pages 1 to N + 1 in the order fetched, and the calls
    made to the service are those for page numbers 1 to N + 1, in this
    order, and no other. *)
Theorem execute_query_concatenates_pages self sql (N : nat) w pages wN fuel :
  fetch_pages sdk_query (S N) self sql 1 w = (pages, wN) ->
  (forall k df, (k < N)%nat -> pages !! k = Some df -> nrows df = PAGE_SIZE self) ->
  (forall df, pages !! N = Some df -> nrows df <> PAGE_SIZE self) ->
  (N < fuel)%nat ->
  execute_query sdk_query fuel self sql w =
    Done (concat pages)
      (if nrows (concat pages) =? MAX_ROWS self
       then log_event PrintTruncationWarning wN else wN) /\
  length pages = S N /\
  exists new,
    trace wN = trace w ++ new /\
    sdk_calls new = map (fun k => query_call self sql (1 + Z.of_nat k)) (seq 0 (S N)).
Proof.
  intros Hf Hfull Hlast Hfuel.
  destruct (fetch_pages_trace _ _ _ _ _ _ _ Hf) as (Hlen & new & Ht & Hc & _).
  split; [|split; [exact Hlen | exists new; auto]].
  unfold execute_query. rewrite bind_run.
  rewrite (execute_query_loop_fetch N self sql 1 w [] pages wN fuel Hf Hfull Hlast Hfuel).
  cbn [app]. destruct pages as [|pg pages]; [discriminate|].
  unfold pd_concat. run. unfold shape0.
  destruct (nrows (concat (pg :: pages)) =? MAX_ROWS self); reflexivity.
Qed.

(** The loop of the Paginator prints no truncation warning and leaves
    the file system alone. *)
Lemma execute_query_loop_trace fuel : forall self sql df_size p acc w l w',
  execute_query_loop sdk_query fuel self sql df_size p acc w = Done l w' ->
  exists new,
    trace w' = trace w ++ new /\ ~ In PrintTruncationWarning new /\
    dirs w' = dirs w /\ files w' = files w.
Proof.
  induction fuel as [|fuel IH]; intros self sql df_size p acc w l w' H;
    cbn [execute_query_loop] in H;
    destruct (df_size =? PAGE_SIZE self).
  - discriminate.
  - inversion H; subst. exists []. rewrite app_nil_r. auto.
  - rewrite bind_run in H.
    destruct (execute_query_page_done self sql p w)
      as (df & w1 & new1 & Hrun & Ht1 & _ & Hw1 & Hd1 & Hf1).
    rewrite Hrun in H. apply IH in H. destruct H as (new2 & Ht2 & Hw2 & Hd2 & Hf2).
    exists (new1 ++ new2). repeat split.
    + rewrite Ht2, Ht1, app_assoc. reflexivity.
    + rewrite in_app_iff. tauto.
    + congruence.
    + congruence.
  - inversion H; subst. exists []. rewrite app_nil_r. auto.
Qed.

(** What a returning run of the Paginator leaves behind. *)
Lemma execute_query_done fuel self sql w df w' :
  execute_query sdk_query fuel self sql w = Done df w' ->
  exists new,
    trace w' = trace w ++ new /\
    (In PrintTruncationWarning new <-> nrows df = MAX_ROWS self) /\
    dirs w' = dirs w /\ files w' = files w.
Proof.
  unfold execute_query. rewrite bind_run.
  destruct (execute_query_loop sdk_query fuel self sql (PAGE_SIZE self) 1 [] w)
    as [l w1| |] eqn:Hloop; try discriminate.
  apply execute_query_loop_trace in Hloop. destruct Hloop as (new & Ht & Hw & Hd & Hf).
  destruct l as [|pg l]; unfold pd_concat; run; [discriminate|].
  unfold shape0. set (d := concat (pg :: l)).
  destruct (nrows d =? MAX_ROWS self) eqn:E; run; intros H; inversion H; subst.
  - apply Z.eqb_eq in E. exists (new ++ [PrintTruncationWarning]).
    rewrite Ht, <- app_assoc. repeat split; auto.
    rewrite in_app_iff. cbn. auto.
  - apply Z.eqb_neq in E. exists new. repeat split; auto; tauto.
Qed.

(** The Paginator against the pages it meets: the frame, and the world
    with the warning or without. *)
Lemma execute_query_on_pages self sql (N : nat) w pages wN fuel :
  fetch_pages sdk_query (S N) self sql 1 w = (pages, wN) ->
  (forall k df, (k < N)%nat -> pages !! k = Some df -> nrows df = PAGE_SIZE self) ->
  (forall df, pages !! N = Some df -> nrows df <> PAGE_SIZE self) ->
  (N < fuel)%nat ->
  execute_query sdk_query fuel self sql w =
  Done (concat pages)
    (if nrows (concat pages) =? MAX_ROWS self
     then log_event PrintTruncationWarning wN else wN).
Proof.
  intros Hf Hfull Hlast Hfuel.
  destruct (fetch_pages_trace _ _ _ _ _ _ _ Hf) as (Hlen & _).
  unfold execute_query. rewrite bind_run.
  rewrite (execute_query_loop_fetch N self sql 1 w [] pages wN fuel Hf Hfull Hlast Hfuel).
  cbn [app]. destruct pages as [|pg pages]; [discriminate|].
  unfold pd_concat. run. unfold shape0.
  destruct (nrows (concat (pg :: pages)) =? MAX_ROWS self); reflexivity.
Qed.

(** C8: the truncation warning of the Paginator. With pages 1 to N full
    and page N + 1 not full, and fuel for N + 1 iterations, the Paginator
    returns the pages put together and, after the events of the fetches,
    prints the warning when this frame has exactly 1,000,000 rows, the
    hard row cap, and prints nothing when it has not. For every run that
    returns a frame, the warning is among what the run has printed if and
    only if the frame has exactly 1,000,000 rows; with fewer rows, no
    warning. *)
Theorem execute_query_warns_iff_capped fuel self sql w :
  MAX_ROWS self = 1000000 /\
  (forall (N : nat) pages wN,
     fetch_pages sdk_query (S N) self sql 1 w = (pages, wN) ->
     (forall k df, (k < N)%nat -> pages !! k = Some df -> nrows df = PAGE_SIZE self) ->
     (forall df, pages !! N = Some df -> nrows df <> PAGE_SIZE self) ->
     (N < fuel)%nat ->
     exists w',
       execute_query sdk_query fuel self sql w = Done (concat pages) w' /\
       ~ In PrintTruncationWarning (skipn (length (trace w)) (trace wN)) /\
       trace w' =
         trace wN ++ (if nrows (concat pages) =? 1000000
                      then [PrintTruncationWarning] else [])) /\
  (forall df w',
     execute_query sdk_query fuel self sql w = Done df w' ->
     exists new,
       trace w' = trace w ++ new /\
       (In PrintTruncationWarning new <-> nrows df = 1000000) /\
       (nrows df < 1000000 -> ~ In PrintTruncationWarning new)).
Proof.
  split; [reflexivity|]. split.
  - intros N pages wN Hf Hfull Hlast Hfuel.
    rewrite (execute_query_on_pages self sql N w pages wN fuel Hf Hfull Hlast Hfuel).
    destruct (fetch_pages_trace _ _ _ _ _ _ _ Hf) as (_ & new & Ht & _ & Hw & _).
    eexists. split; [reflexivity|]. split.
    + rewrite Ht, skipn_app, skipn_all, Nat.sub_diag. exact Hw.
    + unfold MAX_ROWS.
      destruct (nrows (concat pages) =? 1000000); [reflexivity|].
      rewrite app_nil_r. reflexivity.
  - intros df w' H.
    destruct (execute_query_done _ _ _ _ _ _ H) as (new & Ht & Hw & _).
    exists new. unfold MAX_ROWS in Hw. repeat split; try tauto.
    intros Hlt Hin. apply Hw in Hin. lia.
Qed.

(** ** Address Partitioner *)

Lemma select_address_spec df address r :
  In r (select_address df address) <->
  In r df /\ (from_address r = address \/ to_address r = address).
Proof.
  unfold select_address. rewrite filter_In, orb_true_iff, !String.eqb_eq. tauto.
Qed.

Lemma export_one_run df extract_dir network address w :
  export_one df extract_dir network address w =
  Done tt (exported df extract_dir network address w).
Proof.
  unfold export_one, exported.
  destruct (select_address df address) as [|r sel] eqn:Hsel.
  - reflexivity.
  - replace (0 <? shape0 (r :: sel)) with true
      by (symmetry; apply Z.ltb_lt; unfold shape0, nrows; cbn [length]; lia).
    unfold save_csv, os_path_exists, os_makedirs, to_csv. run.
    destruct (bool_decide _ || bool_decide _)%bool; cbn [negb]; run;
      rewrite <- ?app_assoc; reflexivity.
Qed.

Lemma export_address_run df extract_dir network np_address : forall w,
  export_address df np_address extract_dir network w =
  Done tt (fold_left (fun w a => exported df extract_dir network a w) np_address w).
Proof.
  unfold export_address.
  induction np_address as [|a rest IH]; intros w; [reflexivity|].
  cbn [for_each fold_left]. rewrite bind_run, export_one_run. apply IH.
Qed.

(** C7: the Address Partitioner, address by address. For the address at
    any position of the slice: the rows selected are exactly the rows of
    the frame whose from-address or to-address is the address; the loop
    body returns; when rows were selected, the directory
    [extract_dir/network] is created unless it exists already, and the file
    [extract_dir/network/{address}_tx.csv] holds the selected rows and
    nothing else afterwards (a full overwrite), this write being the only
    one; when no row was selected, the world is left as it was: no file is
    created or modified. The rest of the slice is processed from there. *)
Theorem export_address_per_address df pre address rest extract_dir network w :
  let sel := select_address df address in
  let path_to_export := os_path_join extract_dir network in
  let csv_file := os_path_join path_to_export (address +:+ "_tx.csv") in
  (forall r, In r sel <->
             In r df /\ (from_address r = address \/ to_address r = address)) /\
  exists w0 w1,
    export_address df pre extract_dir network w = Done tt w0 /\
    export_one df extract_dir network address w0 = Done tt w1 /\
    export_address df (pre ++ address :: rest) extract_dir network w =
      export_address df rest extract_dir network w1 /\
    (sel <> [] ->
       let existed := path_to_export ∈ dirs w0 \/ is_Some (files w0 !! path_to_export) in
       files w1 = <[csv_file := sel]> (files w0) /\
       files w1 !! csv_file = Some sel /\
       (existed -> dirs w1 = dirs w0 /\
                   trace w1 = trace w0 ++ [ToCsv csv_file sel]) /\
       (~ existed -> dirs w1 = {[path_to_export]} ∪ dirs w0 /\
                     trace w1 = trace w0 ++ [Makedirs path_to_export; ToCsv csv_file sel]) /\
       (path_to_export ∈ dirs w1 \/ is_Some (files w0 !! path_to_export))) /\
    (sel = [] -> w1 = w0).
Proof.
  cbv zeta. split; [intros r; apply select_address_spec|].
  eexists _, _. split; [apply export_address_run|].
  split; [apply export_one_run|].
  split.
  { rewrite !export_address_run, fold_left_app. reflexivity. }
  set (w0 := fold_left _ pre w). unfold exported.
  destruct (select_address df address) as [|r sel]; [split; [congruence | reflexivity]|].
  split; [|discriminate]. intros _. cbn [files dirs trace].
  set (path := os_path_join extract_dir network).
  assert (Hex : (bool_decide (path ∈ dirs w0) || bool_decide (is_Some (files w0 !! path)))%bool
                = true <-> path ∈ dirs w0 \/ is_Some (files w0 !! path)).
  { rewrite orb_true_iff, !bool_decide_eq_true. tauto. }
  destruct (bool_decide (path ∈ dirs w0) || bool_decide (is_Some (files w0 !! path)))%bool.
  - split; [reflexivity|]. split; [apply lookup_insert_eq|].
    split; [intros _; split; reflexivity|].
    split; [intros Hn; exfalso; apply Hn, Hex; reflexivity|].
    apply Hex. reflexivity.
  - split; [reflexivity|]. split; [apply lookup_insert_eq|].
    split; [intros He; apply Hex in He; discriminate|].
    split; [intros _; split; reflexivity|].
    left. apply elem_of_union_l, elem_of_singleton. reflexivity.
Qed.

(** ** Slices *)

Lemma firstn_add {A : Type} (n m : nat) : forall l : list A,
  firstn (n + m) l = firstn n l ++ firstn m (skipn n l).
Proof.
  induction n as [|n IH]; intros [|x l]; cbn; try reflexivity.
  - rewrite firstn_nil. reflexivity.
  - rewrite IH. reflexivity.
Qed.

(** A slice with non-negative bounds: both bounds clamped to the length. *)
Lemma py_slice_nonneg {A : Type} (l : list A) (start stop : Z) :
  0 <= start -> 0 <= stop ->
  py_slice l start stop =
  let len := Z.of_nat (length l) in
  firstn (Z.to_nat (Z.min stop len - Z.min start len))
         (skipn (Z.to_nat (Z.min start len)) l).
Proof.
  intros Hs He. unfold py_slice, slice_index.
  destruct (start <? 0) eqn:E1; [apply Z.ltb_lt in E1; lia|].
  destruct (stop <? 0) eqn:E2; [apply Z.ltb_lt in E2; lia|].
  reflexivity.
Qed.

Lemma py_slice_empty_range {A : Type} (l : list A) (i : Z) : py_slice l i i = [].
Proof. unfold py_slice. rewrite Z.sub_diag. reflexivity. Qed.

(** Two adjacent slices make the slice of the whole range. *)
Lemma py_slice_app {A : Type} (l : list A) (a b c : Z) :
  0 <= a <= b -> b <= c ->
  py_slice l a b ++ py_slice l b c = py_slice l a c.
Proof.
  intros Hab Hbc. rewrite !py_slice_nonneg by lia. cbv zeta.
  set (len := Z.of_nat (length l)).
  set (x := Z.min a len). set (y := Z.min b len). set (z := Z.min c len).
  assert (0 <= x <= y /\ y <= z) as [Hxy Hyz] by (subst x y z; lia).
  replace (Z.to_nat (z - x)) with (Z.to_nat (y - x) + Z.to_nat (z - y))%nat by lia.
  rewrite firstn_add, skipn_skipn.
  replace (Z.to_nat (y - x) + Z.to_nat x)%nat with (Z.to_nat y) by lia.
  reflexivity.
Qed.

(** ** Range Splitter *)

Lemma extract_transactions_rec_S depth fuel self array_address start_index end_index
    network extract_dir w :
  extract_transactions_rec sdk_query (S depth) fuel self array_address
    start_index end_index network extract_dir w =
  match extract_transactions_between_rec sdk_query depth fuel self array_address
          start_index ((start_index + end_index) / 2) network extract_dir
          (log_event PrintRetrying w) with
  | Done _ w1 =>
      extract_transactions_between_rec sdk_query depth fuel self array_address
        ((start_index + end_index) / 2) end_index network extract_dir w1
  | Raised e w1 => Raised e w1
  | OutOfFuel => OutOfFuel
  end.
Proof. reflexivity. Qed.

Lemma extract_transactions_between_rec_S depth fuel self array_address
    start_index end_index network extract_dir w :
  extract_transactions_between_rec sdk_query (S depth) fuel self array_address
    start_index end_index network extract_dir w =
  match get_transactions sdk_query fuel self
          (py_slice array_address start_index end_index) network
          (log_event (PrintRetryRange start_index end_index) w) with
  | Done df w1 =>
      if shape0 df =? 0 then
        extract_transactions_rec sdk_query depth fuel self array_address
          start_index end_index network extract_dir (log_event PrintRetrying w1)
      else
        export_address df (py_slice array_address start_index end_index)
          extract_dir network w1
  | Raised e w1 => Raised e w1
  | OutOfFuel => OutOfFuel
  end.
Proof.
  cbn [extract_transactions_between_rec]. unfold mbind, M_bind, emit.
  destruct (get_transactions sdk_query fuel self _ network (log_event _ w))
    as [df w1| |]; try reflexivity.
  destruct (shape0 df =? 0); reflexivity.
Qed.

(** C6: the Range Splitter on [[s, e)] takes [mid = (s + e) // 2] and runs
    the retry on [[s, mid)] and then on [[mid, e)]: the right half starts
    from the world the left half has left, and is not run when the left
    half does not return. The two index intervals are disjoint and cover
    [[s, e)]; for [0 <= s <= e] the two address slices put one after the
    other are the slice of the whole range. This is what every call of
    the method does, whatever room the recursion limit leaves for the
    calls it makes. *)
Theorem extract_transactions_rec_bisects depth fuel self array_address s e
    network extract_dir w :
  let mid := (s + e) / 2 in
  (forall j, s <= j < e <-> (s <= j < mid \/ mid <= j < e)) /\
  (forall j, ~ (s <= j < mid /\ mid <= j < e)) /\
  (0 <= s <= e ->
     s <= mid <= e /\
     py_slice array_address s mid ++ py_slice array_address mid e =
     py_slice array_address s e) /\
  extract_transactions_rec sdk_query (S depth) fuel self array_address s e
    network extract_dir w =
  match extract_transactions_between_rec sdk_query depth fuel self array_address
          s mid network extract_dir (log_event PrintRetrying w) with
  | Done _ w1 =>
      extract_transactions_between_rec sdk_query depth fuel self array_address
        mid e network extract_dir w1
  | Raised ex w1 => Raised ex w1
  | OutOfFuel => OutOfFuel
  end.
Proof.
  cbv zeta.
  assert (Hmid : 2 * ((s + e) / 2) <= s + e < 2 * ((s + e) / 2) + 2).
  { pose proof (Z.div_mod (s + e) 2 ltac:(lia)).
    pose proof (Z.mod_pos_bound (s + e) 2 ltac:(lia)). lia. }
  split; [intros j; lia|]. split; [intros j; lia|].
  split; [|apply extract_transactions_rec_S].
  intros Hse. split; [lia|]. apply py_slice_app; lia.
Qed.

(** The Paginator never raises: the loop has fetched at least one page
    when it ends, so [pd.concat] has something to concatenate. *)
Lemma execute_query_loop_returns fuel : forall self sql df_size p acc w,
  df_size = PAGE_SIZE self \/ acc <> [] ->
  execute_query_loop sdk_query fuel self sql df_size p acc w = OutOfFuel \/
  exists l w',
    execute_query_loop sdk_query fuel self sql df_size p acc w = Done l w' /\ l <> [].
Proof.
  induction fuel as [|fuel IH]; intros self sql df_size p acc w Hacc;
    cbn [execute_query_loop]; destruct (df_size =? PAGE_SIZE self) eqn:E.
  - left. reflexivity.
  - right. apply Z.eqb_neq in E. destruct Hacc; [contradiction|]. eauto.
  - rewrite bind_run.
    destruct (execute_query_page_done self sql p w) as (df & w1 & _ & Hrun & _).
    rewrite Hrun. apply IH. right. destruct acc; discriminate.
  - right. apply Z.eqb_neq in E. destruct Hacc; [contradiction|]. eauto.
Qed.

Lemma execute_query_returns fuel self sql w :
  execute_query sdk_query fuel self sql w = OutOfFuel \/
  exists df w', execute_query sdk_query fuel self sql w = Done df w'.
Proof.
  unfold execute_query. rewrite bind_run.
  destruct (execute_query_loop_returns fuel self sql (PAGE_SIZE self) 1 [] w
              (or_introl eq_refl)) as [H|(l & w1 & H & Hne)]; rewrite H.
  - left. reflexivity.
  - right. destruct l as [|pg l]; [contradiction|]. unfold pd_concat. run.
    destruct (shape0 (concat (pg :: l)) =? MAX_ROWS self); run; eauto.
Qed.

(** The networks with a query text are the six supported ones, whatever
    the addresses. *)
Lemma get_transactions_sql_supported self array_address network :
  supported_network network <->
  exists sql, get_transactions_sql self array_address network = Ok sql.
Proof.
  unfold supported_network, get_transactions_sql. cbn [In]. split.
  - intros [H|[H|[H|[H|[H|[H|[]]]]]]]; subst network; eexists; reflexivity.
  - intros [sql H].
    repeat match type of H with
           | (if String.eqb ?a ?b then _ else _) = _ =>
               destruct (String.eqb_spec a b); [subst; tauto|]
           end.
    discriminate.
Qed.

(** With its query text, [get_transactions] is the Paginator. *)
Lemma get_transactions_run fuel self array_address network sql w :
  get_transactions_sql self array_address network = Ok sql ->
  get_transactions sdk_query fuel self array_address network w =
  match execute_query sdk_query fuel self sql w with
  | Done df w' => Done df w'
  | Raised e w' => Raised e w'
  | OutOfFuel => OutOfFuel
  end.
Proof.
  intros Hsql. unfold get_transactions. rewrite Hsql. reflexivity.
Qed.

Lemma get_transactions_returns fuel self array_address network w :
  supported_network network ->
  get_transactions sdk_query fuel self array_address network w = OutOfFuel \/
  exists df w', get_transactions sdk_query fuel self array_address network w = Done df w'.
Proof.
  intros Hnet.
  apply (get_transactions_sql_supported self array_address) in Hnet as [sql Hsql].
  rewrite (get_transactions_run _ _ _ _ _ _ Hsql).
  destruct (execute_query_returns fuel self sql w) as [H|(df & w' & H)]; rewrite H; eauto.
Qed.

(** On a supported network the only exception of the retry is the
    [RecursionError] of the recursion limit. *)
Lemma retry_outcomes self array_address network extract_dir fuel :
  supported_network network ->
  forall depth,
    (forall s e w,
       extract_transactions_rec sdk_query depth fuel self array_address s e
         network extract_dir w = OutOfFuel \/
       (exists w',
          extract_transactions_rec sdk_query depth fuel self array_address s e
            network extract_dir w = Done tt w') \/
       (exists w',
          extract_transactions_rec sdk_query depth fuel self array_address s e
            network extract_dir w = Raised recursion_error w')) /\
    (forall s e w,
       extract_transactions_between_rec sdk_query depth fuel self array_address s e
         network extract_dir w = OutOfFuel \/
       (exists w',
          extract_transactions_between_rec sdk_query depth fuel self array_address s e
            network extract_dir w = Done tt w') \/
       (exists w',
          extract_transactions_between_rec sdk_query depth fuel self array_address s e
            network extract_dir w = Raised recursion_error w')).
Proof.
  intros Hnet. induction depth as [|depth [IHrec IHbetween]].
  - split; intros; right; right; eexists; reflexivity.
  - split; intros s e w.
    + rewrite extract_transactions_rec_S.
      destruct (IHbetween s ((s + e) / 2) (log_event PrintRetrying w))
        as [H|[[w1 H]|[w1 H]]]; rewrite H.
      * left. reflexivity.
      * apply IHbetween.
      * right. right. eauto.
    + rewrite extract_transactions_between_rec_S.
      destruct (get_transactions_returns fuel self (py_slice array_address s e) network
                  (log_event (PrintRetryRange s e) w) Hnet) as [H|(df & w1 & H)];
        rewrite H; [left; reflexivity|].
      destruct (shape0 df =? 0); [apply IHrec|].
      right. left. rewrite export_address_run. eauto.
Qed.

Section EmptyQuery.

Variable sql : string.
Hypothesis service_empty : empty_for sdk_query sql.

Lemma execute_query_page_empty self page_number w :
  exists w', execute_query_page sdk_query self sql page_number w = Done [] w'.
Proof.
  rewrite execute_query_page_run. cbv zeta.
  pose proof (service_empty (sdk w) (query_call self sql page_number) eq_refl) as He.
  destruct (snd (sdk_query (sdk w) (query_call self sql page_number))) as [rs|e].
  - unfold pd_DataFrame. rewrite He. eauto.
  - eauto.
Qed.

Lemma execute_query_loop_empty fuel : forall self df_size p acc w,
  acc <> [] -> concat acc = [] ->
  execute_query_loop sdk_query fuel self sql df_size p acc w = OutOfFuel \/
  exists l w',
    execute_query_loop sdk_query fuel self sql df_size p acc w = Done l w' /\
    l <> [] /\ concat l = [].
Proof.
  induction fuel as [|fuel IH]; intros self df_size p acc w Hne Hc;
    cbn [execute_query_loop]; destruct (df_size =? PAGE_SIZE self).
  - left. reflexivity.
  - right. eauto.
  - rewrite bind_run.
    destruct (execute_query_page_empty self p w) as [w1 Hrun]. rewrite Hrun.
    apply IH.
    + destruct acc; [contradiction | discriminate].
    + rewrite concat_app, Hc. reflexivity.
  - right. eauto.
Qed.

(** The Paginator on this query, if it returns, returns the empty frame. *)
Lemma execute_query_empty fuel self w :
  execute_query sdk_query fuel self sql w = OutOfFuel \/
  exists w', execute_query sdk_query fuel self sql w = Done [] w'.
Proof.
  unfold execute_query. rewrite bind_run.
  destruct fuel as [|fuel]; cbn [execute_query_loop]; rewrite Z.eqb_refl.
  - left. reflexivity.
  - rewrite bind_run.
    destruct (execute_query_page_empty self 1 w) as [w1 Hrun]. rewrite Hrun.
    match goal with
    | |- context [execute_query_loop _ ?f ?a ?q ?sz ?pn ?acc ?w0] =>
        destruct (execute_query_loop_empty f a sz pn acc w0
                    ltac:(discriminate) eq_refl)
          as [Hout|(l & w2 & Hl & Hne & Hc)]
    end.
    + rewrite Hout. left. reflexivity.
    + rewrite Hl. right. destruct l as [|pg l]; [contradiction|].
      unfold pd_concat. run. rewrite Hc. cbn. eauto.
Qed.

(** With a page size other than 0 the empty first page ends the loop:
    one unit of fuel is enough for the Paginator to return. *)
Lemma execute_query_empty_done fuel self w :
  PAGE_SIZE self <> 0 ->
  exists w', execute_query sdk_query (S fuel) self sql w = Done [] w'.
Proof.
  intros Hps. unfold execute_query. rewrite bind_run.
  cbn [execute_query_loop]. rewrite Z.eqb_refl, bind_run.
  destruct (execute_query_page_empty self 1 w) as [w1 Hrun]. rewrite Hrun.
  assert (Hloop : forall acc w0,
            execute_query_loop sdk_query fuel self sql (shape0 []) (1 + 1) acc w0
            = Done acc w0).
  { intros acc w0.
    assert (E : (shape0 [] =? PAGE_SIZE self) = false)
      by (apply Z.eqb_neq; unfold shape0, nrows; cbn; lia).
    destruct fuel; cbn [execute_query_loop]; rewrite E; reflexivity. }
  rewrite Hloop. unfold pd_concat. run. cbn. eauto.
Qed.

(** The retry on the range [[s, s + 1)] never returns when the query of
    its slice never brings a row: the only way out is the
    [RecursionError] of the recursion limit. *)
Lemma single_address_never_returns self array_address network extract_dir s fuel :
  get_transactions_sql self (py_slice array_address s (s + 1)) network = Ok sql ->
  forall depth,
    (forall w,
       extract_transactions_rec sdk_query depth fuel self array_address s (s + 1)
         network extract_dir w = OutOfFuel \/
       exists w',
         extract_transactions_rec sdk_query depth fuel self array_address s (s + 1)
           network extract_dir w = Raised recursion_error w') /\
    (forall w,
       extract_transactions_between_rec sdk_query depth fuel self array_address s (s + 1)
         network extract_dir w = OutOfFuel \/
       exists w',
         extract_transactions_between_rec sdk_query depth fuel self array_address
           s (s + 1) network extract_dir w = Raised recursion_error w').
Proof.
  intros Hsql.
  assert (Hnet : supported_network network).
  { apply (get_transactions_sql_supported self (py_slice array_address s (s + 1))). eauto. }
  assert (Hmid : (s + (s + 1)) / 2 = s).
  { replace (s + (s + 1)) with (1 + s * 2) by lia.
    rewrite Z.div_add by lia. reflexivity. }
  induction depth as [|depth [IHrec IHbetween]].
  - split; intros; right; eexists; reflexivity.
  - split; intros w.
    + rewrite extract_transactions_rec_S, Hmid.
      destruct (proj2 (retry_outcomes self array_address network extract_dir fuel
                         Hnet depth) s s (log_event PrintRetrying w))
        as [H|[[w1 H]|[w1 H]]]; rewrite H.
      * left. reflexivity.
      * apply IHbetween.
      * right. eauto.
    + rewrite extract_transactions_between_rec_S.
      rewrite (get_transactions_run _ _ _ _ _ _ Hsql).
      destruct (execute_query_empty fuel self (log_event (PrintRetryRange s (s + 1)) w))
        as [H|[w1 H]]; rewrite H.
      * left. reflexivity.
      * cbn. apply IHrec.
Qed.

End EmptyQuery.

Lemma never_rows_empty_for sql : never_rows sdk_query -> empty_for sdk_query sql.
Proof. intros H st call _. apply H. Qed.

(** When no query ever brings a row and the page size is not 0, the retry
    on any range ends with the [RecursionError] of the recursion limit. *)
Lemma retry_raises self array_address network extract_dir fuel :
  supported_network network ->
  never_rows sdk_query ->
  PAGE_SIZE self <> 0 ->
  forall depth,
    (forall s e w,
       exists w',
         extract_transactions_rec sdk_query depth (S fuel) self array_address s e
           network extract_dir w = Raised recursion_error w') /\
    (forall s e w,
       exists w',
         extract_transactions_between_rec sdk_query depth (S fuel) self array_address s e
           network extract_dir w = Raised recursion_error w').
Proof.
  intros Hnet Hnever Hps. induction depth as [|depth [IHrec IHbetween]].
  - split; intros; eexists; reflexivity.
  - split; intros s e w.
    + rewrite extract_transactions_rec_S.
      destruct (IHbetween s ((s + e) / 2) (log_event PrintRetrying w)) as [w1 H].
      rewrite H. eauto.
    + rewrite extract_transactions_between_rec_S.
      destruct (proj1 (get_transactions_sql_supported self (py_slice array_address s e)
                         network) Hnet) as [sql Hsql].
      rewrite (get_transactions_run _ _ _ _ _ _ Hsql).
      destruct (execute_query_empty_done sql (never_rows_empty_for sql Hnever) fuel self
                  (log_event (PrintRetryRange s e) w) Hps) as [w1 H].
      rewrite H. cbn. apply IHrec.
Qed.

(** C2, as amended: a retry whose query returns zero rows goes on to the
    Range Splitter whatever the size of the range: nothing but the
    emptiness of the frame is looked at. When the query of the single
    address of a range [[s, s + 1)] never brings a row (every call with
    its text fails or returns no record), the retry on that range never
    returns normally, from either entry point: it recurses until the
    recursion limit of the interpreter, and the only exception that
    reaches the caller is [RecursionError] (a run of the Paginator that
    does not end apart). When no query at all brings a row and the page
    size is not 0, every run of the Paginator ends and the retry does end
    with [RecursionError], whatever room the limit leaves. *)
Theorem single_address_retry_ends_in_recursion_error
    self array_address network extract_dir s sql :
  get_transactions_sql self (py_slice array_address s (s + 1)) network = Ok sql ->
  empty_for sdk_query sql ->
  (forall depth fuel a e w df w1,
     get_transactions sdk_query fuel self (py_slice array_address a e) network
       (log_event (PrintRetryRange a e) w) = Done df w1 ->
     nrows df = 0 ->
     extract_transactions_between_rec sdk_query (S depth) fuel self array_address a e
       network extract_dir w =
     extract_transactions_rec sdk_query depth fuel self array_address a e
       network extract_dir (log_event PrintRetrying w1)) /\
  (forall depth fuel w,
     (extract_transactions_between_rec sdk_query depth fuel self array_address s (s + 1)
        network extract_dir w = OutOfFuel \/
      exists w',
        extract_transactions_between_rec sdk_query depth fuel self array_address
          s (s + 1) network extract_dir w = Raised recursion_error w') /\
     (extract_transactions_rec sdk_query depth fuel self array_address s (s + 1)
        network extract_dir w = OutOfFuel \/
      exists w',
        extract_transactions_rec sdk_query depth fuel self array_address s (s + 1)
          network extract_dir w = Raised recursion_error w')) /\
  (never_rows sdk_query -> PAGE_SIZE self <> 0 ->
   forall depth fuel w,
     (exists w',
        extract_transactions_between_rec sdk_query depth (S fuel) self array_address
          s (s + 1) network extract_dir w = Raised recursion_error w') /\
     (exists w',
        extract_transactions_rec sdk_query depth (S fuel) self array_address s (s + 1)
          network extract_dir w = Raised recursion_error w')).
Proof.
  intros Hsql Hempty.
  assert (Hnet : supported_network network).
  { apply (get_transactions_sql_supported self (py_slice array_address s (s + 1))). eauto. }
  split; [|split].
  - intros depth fuel a e w df w1 Hget Hrows.
    rewrite extract_transactions_between_rec_S, Hget. unfold shape0.
    rewrite Hrows. reflexivity.
  - intros depth fuel w.
    destruct (single_address_never_returns sql Hempty self array_address network
                extract_dir s fuel Hsql depth) as [Hrec Hbetween].
    split; [apply Hbetween | apply Hrec].
  - intros Hnever Hps depth fuel w.
    destruct (retry_raises self array_address network extract_dir fuel
                Hnet Hnever Hps depth) as [Hrec Hbetween].
    split; [apply Hbetween | apply Hrec].
Qed.

(** C10: bisecting a range of one address. [mid] is [s], so the Range
    Splitter retries the empty range [[s, s)] and then the unchanged range
    [[s, s + 1)]. The retry on [[s, s)] runs the query of the empty slice:
    [get_string_address] of no address is the empty string, and every
    query builder writes it between the parentheses of both [IN]
    clauses. *)
Theorem single_address_range_not_shrunk depth fuel self array_address s
    network extract_dir w :
  (s + (s + 1)) / 2 = s /\
  extract_transactions_rec sdk_query (S depth) fuel self array_address s (s + 1)
    network extract_dir w =
  match extract_transactions_between_rec sdk_query depth fuel self array_address
          s s network extract_dir (log_event PrintRetrying w) with
  | Done _ w1 =>
      extract_transactions_between_rec sdk_query depth fuel self array_address
        s (s + 1) network extract_dir w1
  | Raised ex w1 => Raised ex w1
  | OutOfFuel => OutOfFuel
  end /\
  py_slice array_address s s = [] /\
  extract_transactions_between_rec sdk_query (S depth) fuel self array_address s s
    network extract_dir w =
  match get_transactions sdk_query fuel self [] network
          (log_event (PrintRetryRange s s) w) with
  | Done df w1 =>
      if shape0 df =? 0 then
        extract_transactions_rec sdk_query depth fuel self array_address s s
          network extract_dir (log_event PrintRetrying w1)
      else export_address df [] extract_dir network w1
  | Raised ex w1 => Raised ex w1
  | OutOfFuel => OutOfFuel
  end /\
  get_string_address [] = "" /\
  Forall (fun build : FlipsideApi -> list string -> Z -> string =>
            exists indent columns table, forall limit,
              build self [] limit =
              sql_text indent
                (columns ++
                 ["FROM " +:+ table;
                  "WHERE FROM_ADDRESS IN ()";
                  "OR TO_ADDRESS IN ()";
                  string_limit limit +:+ ";"]))
    [get_eth_transactions_sql_query; get_polygon_transactions_sql_query;
     get_arbitrum_transactions_sql_query; get_avalanche_transactions_sql_query;
     get_gnosis_transactions_sql_query; get_optimism_transactions_sql_query].
Proof.
  assert (Hmid : (s + (s + 1)) / 2 = s).
  { replace (s + (s + 1)) with (1 + s * 2) by lia.
    rewrite Z.div_add by lia. reflexivity. }
  split; [exact Hmid|].
  split; [rewrite extract_transactions_rec_S, Hmid; reflexivity|].
  split; [apply py_slice_empty_range|].
  split; [rewrite extract_transactions_between_rec_S, py_slice_empty_range; reflexivity|].
  split; [reflexivity|].
  repeat constructor;
    eexists _, (_ ++ _), _; intros limit;
    unfold get_eth_transactions_sql_query, get_polygon_transactions_sql_query,
      get_arbitrum_transactions_sql_query, get_avalanche_transactions_sql_query,
      get_gnosis_transactions_sql_query, get_optimism_transactions_sql_query,
      transactions_sql;
    rewrite <- app_assoc; reflexivity.
Qed.

(** ** Batch Extractor *)

(** A tuple is never equal to an int. *)
Lemma shape_never_int df n : py_eq (shape df) (PyInt n) = false.
Proof. reflexivity. Qed.

(** C1 (the code departs from it): a frame of exactly [MAX_ROWS] rows is
    not handed to the Range Splitter. The test on line 94 compares the
    tuple [df.shape] with the integer [MAX_ROWS], which is never true, so a
    capped frame goes to the Address Partitioner with its data, as any
    non-empty frame does. *)
Theorem capped_batch_is_exported depth fuel self extract_dir array_address network
    start_index end_index df :
  nrows df = MAX_ROWS self ->
  route_batch sdk_query depth fuel self extract_dir array_address network
    start_index end_index df =
  export_address df (py_slice array_address start_index end_index) extract_dir network.
Proof.
  intros Hcap. unfold route_batch, shape0. rewrite shape_never_int, Hcap.
  reflexivity.
Qed.

Lemma batch_count_ceil (L M : Z) :
  0 < M -> (batch_count L M - 1) * M < L <= batch_count L M * M.
Proof.
  intros HM. unfold batch_count.
  pose proof (Z.div_mod L M ltac:(lia)) as Hdm.
  pose proof (Z.mod_pos_bound L M HM) as Hb.
  destruct (L mod M =? 0) eqn:E; cbn [negb].
  - apply Z.eqb_eq in E. nia.
  - apply Z.eqb_neq in E. nia.
Qed.

Lemma extract_transactions_net_run depth fuel self extract_dir array_address network w :
  0 < MAX_ADDRESS self ->
  extract_transactions_net sdk_query depth fuel self extract_dir array_address network w =
  for_each
    (py_range (batch_count (Z.of_nat (length array_address)) (MAX_ADDRESS self)))
    (extract_batch sdk_query depth fuel self extract_dir array_address network)
    (log_event (PrintExtractingNetwork network) w).
Proof.
  intros HM. unfold extract_transactions_net, py_divmod.
  destruct (MAX_ADDRESS self =? 0) eqn:E; [apply Z.eqb_eq in E; lia|].
  reflexivity.
Qed.

Lemma py_range_In (q i : Z) : In i (py_range q) <-> 0 <= i < q.
Proof.
  unfold py_range. rewrite in_map_iff. split.
  - intros (k & <- & Hk). apply in_seq in Hk. lia.
  - intros Hi. exists (Z.to_nat i). split; [lia|]. apply in_seq. lia.
Qed.

Lemma py_range_nth (q : Z) (i : nat) :
  (i < Z.to_nat q)%nat -> nth_error (py_range q) i = Some (Z.of_nat i).
Proof.
  intros Hi. unfold py_range.
  rewrite nth_error_map, nth_error_seq.
  destruct (Nat.ltb_spec i (Z.to_nat q)); [reflexivity | lia].
Qed.

(** The slices of the first [n] batches, one after the other, are the
    first [n * M] addresses (all of them once [n * M] passes the end). *)
Lemma batches_concat {A : Type} (l : list A) (M : Z) (n : nat) :
  0 < M ->
  concat (map (fun i => py_slice l (i * M) ((i + 1) * M)) (map Z.of_nat (seq 0 n))) =
  firstn (Z.to_nat (Z.min (Z.of_nat n * M) (Z.of_nat (length l)))) l.
Proof.
  intros HM. induction n as [|n IH].
  - cbn [seq map concat]. replace (Z.to_nat _) with 0%nat by lia. reflexivity.
  - rewrite seq_S, !map_app, concat_app, IH. cbn [map concat Nat.add].
    rewrite app_nil_r, py_slice_nonneg by nia. cbv zeta.
    set (len := Z.of_nat (length l)).
    set (a := Z.min (Z.of_nat n * M) len).
    set (b := Z.min ((Z.of_nat n + 1) * M) len).
    replace (Z.min (Z.of_nat (S n) * M) len) with b by (subst b; f_equal; lia).
    assert (0 <= a <= b) by (subst a b len; nia).
    replace (Z.to_nat b) with (Z.to_nat a + Z.to_nat (b - a))%nat by lia.
    rewrite firstn_add. reflexivity.
Qed.

(** What the body of the loop does for batch [i]: it prints and uses the
    indices [i * M] and [(i + 1) * M], queries the slice between them, and
    passes the frame on with the same two indices. *)
Lemma extract_batch_run depth fuel self extract_dir array_address network i w :
  extract_batch sdk_query depth fuel self extract_dir array_address network i w =
  match get_transactions sdk_query fuel self
          (py_slice array_address (i * MAX_ADDRESS self) ((i + 1) * MAX_ADDRESS self))
          network
          (log_event (PrintBatchRange (i * MAX_ADDRESS self) ((i + 1) * MAX_ADDRESS self)) w)
  with
  | Done df w1 =>
      route_batch sdk_query depth fuel self extract_dir array_address network
        (i * MAX_ADDRESS self) ((i + 1) * MAX_ADDRESS self) df w1
  | Raised ex w1 => Raised ex w1
  | OutOfFuel => OutOfFuel
  end.
Proof. reflexivity. Qed.

(** *** The batch ranges a run prints *)

Lemma printed_batch_ranges_app t1 t2 :
  printed_batch_ranges (t1 ++ t2) = printed_batch_ranges t1 ++ printed_batch_ranges t2.
Proof. unfold printed_batch_ranges. apply flat_map_app. Qed.

Lemma prints_no_batch_range_refl w : prints_no_batch_range w w.
Proof. exists []. rewrite app_nil_r. auto. Qed.

Lemma prints_no_batch_range_trans w1 w2 w3 :
  prints_no_batch_range w1 w2 -> prints_no_batch_range w2 w3 ->
  prints_no_batch_range w1 w3.
Proof.
  intros (n1 & H1 & Hp1) (n2 & H2 & Hp2). exists (n1 ++ n2).
  rewrite H2, H1, app_assoc, printed_batch_ranges_app, Hp1, Hp2. auto.
Qed.

Lemma prints_no_batch_range_log ev w :
  printed_batch_ranges [ev] = [] -> prints_no_batch_range w (log_event ev w).
Proof. intros H. exists [ev]. auto. Qed.

Lemma execute_query_page_quiet self sql page_number w df w' :
  execute_query_page sdk_query self sql page_number w = Done df w' ->
  prints_no_batch_range w w'.
Proof.
  rewrite execute_query_page_run. cbv zeta.
  destruct (snd (sdk_query (sdk w) (query_call self sql page_number))) as [rs|e];
    intros H; inversion H; subst; eexists; (split; [reflexivity|]); reflexivity.
Qed.

Lemma execute_query_loop_quiet fuel : forall self sql df_size p acc w l w',
  execute_query_loop sdk_query fuel self sql df_size p acc w = Done l w' ->
  prints_no_batch_range w w'.
Proof.
  induction fuel as [|fuel IH]; intros self sql df_size p acc w l w' H;
    cbn [execute_query_loop] in H; destruct (df_size =? PAGE_SIZE self);
    try discriminate;
    try (inversion H; subst; apply prints_no_batch_range_refl).
  rewrite bind_run in H.
  destruct (execute_query_page sdk_query self sql p w) as [df w1| |] eqn:Hp;
    try discriminate.
  eapply prints_no_batch_range_trans;
    [eapply execute_query_page_quiet; exact Hp | eapply IH; exact H].
Qed.

Lemma execute_query_quiet fuel self sql w df w' :
  execute_query sdk_query fuel self sql w = Done df w' ->
  prints_no_batch_range w w'.
Proof.
  unfold execute_query. rewrite bind_run.
  destruct (execute_query_loop sdk_query fuel self sql (PAGE_SIZE self) 1 [] w)
    as [l w1| |] eqn:Hloop; try discriminate.
  apply execute_query_loop_quiet in Hloop.
  destruct l as [|pg l];
    cbv beta iota delta [pd_concat mbind M_bind mret M_ret emit raise lift];
    [discriminate|].
  lazymatch goal with |- context [if ?c then _ else _] => destruct c end;
    intros H; inversion H; subst; [|exact Hloop].
  eapply prints_no_batch_range_trans; [exact Hloop|].
  apply prints_no_batch_range_log. reflexivity.
Qed.

Lemma get_transactions_quiet fuel self addresses network w df w' :
  get_transactions sdk_query fuel self addresses network w = Done df w' ->
  prints_no_batch_range w w'.
Proof.
  unfold get_transactions. rewrite bind_run.
  destruct (get_transactions_sql self addresses network) as [sql|e];
    cbv beta iota delta [lift mret M_ret raise]; [|discriminate].
  rewrite bind_run.
  destruct (execute_query sdk_query fuel self sql w) as [d w1| |] eqn:H; try discriminate.
  cbv beta iota delta [mret M_ret]. intros Heq. inversion Heq; subst.
  eapply execute_query_quiet. exact H.
Qed.

Lemma export_address_quiet df np_address extract_dir network : forall w w',
  export_address df np_address extract_dir network w = Done tt w' ->
  prints_no_batch_range w w'.
Proof.
  intros w w'. rewrite export_address_run. intros H. inversion H; subst. clear H.
  revert w. induction np_address as [|a rest IH]; intros w; cbn [fold_left].
  - apply prints_no_batch_range_refl.
  - eapply prints_no_batch_range_trans; [|apply IH].
    unfold exported. destruct (select_address df a); [apply prints_no_batch_range_refl|].
    eexists. cbn [trace]. split; [reflexivity|].
    destruct (bool_decide _ || bool_decide _)%bool; reflexivity.
Qed.

Lemma retry_quiet self array_address network extract_dir fuel :
  forall depth,
    (forall s e w w',
       extract_transactions_rec sdk_query depth fuel self array_address s e
         network extract_dir w = Done tt w' -> prints_no_batch_range w w') /\
    (forall s e w w',
       extract_transactions_between_rec sdk_query depth fuel self array_address s e
         network extract_dir w = Done tt w' -> prints_no_batch_range w w').
Proof.
  induction depth as [|depth [IHrec IHbetween]].
  - split; intros; discriminate.
  - split; intros s e w w' H.
    + rewrite extract_transactions_rec_S in H.
      destruct (extract_transactions_between_rec sdk_query depth fuel self array_address s
                  ((s + e) / 2) network extract_dir (log_event PrintRetrying w))
        as [[] w1| |] eqn:H1; try discriminate.
      apply IHbetween in H1. apply IHbetween in H.
      eapply prints_no_batch_range_trans; [|exact H].
      eapply prints_no_batch_range_trans; [|exact H1].
      apply prints_no_batch_range_log. reflexivity.
    + rewrite extract_transactions_between_rec_S in H.
      destruct (get_transactions sdk_query fuel self (py_slice array_address s e) network
                  (log_event (PrintRetryRange s e) w)) as [df w1| |] eqn:H1;
        try discriminate.
      apply get_transactions_quiet in H1.
      eapply prints_no_batch_range_trans;
        [eapply prints_no_batch_range_trans;
         [apply (prints_no_batch_range_log (PrintRetryRange s e)); reflexivity
         | exact H1]|].
      destruct (shape0 df =? 0).
      * apply IHrec in H. eapply prints_no_batch_range_trans; [|exact H].
        apply prints_no_batch_range_log. reflexivity.
      * eapply export_address_quiet. exact H.
Qed.

(** A returning batch has printed its own range, [(i * M, (i + 1) * M)],
    and no other. *)
Lemma extract_batch_prints depth fuel self extract_dir array_address network i w w' :
  extract_batch sdk_query depth fuel self extract_dir array_address network i w
    = Done tt w' ->
  exists new,
    trace w' = trace w ++ new /\
    printed_batch_ranges new = [(i * MAX_ADDRESS self, (i + 1) * MAX_ADDRESS self)].
Proof.
  rewrite extract_batch_run.
  destruct (get_transactions sdk_query fuel self _ network (log_event _ w))
    as [df w1| |] eqn:H1; try discriminate.
  intros H. apply get_transactions_quiet in H1.
  assert (H2 : prints_no_batch_range w1 w').
  { unfold route_batch in H.
    destruct ((shape0 df =? 0) || py_eq (shape df) (PyInt (MAX_ROWS self)))%bool.
    - eapply (proj1 (retry_quiet self array_address network extract_dir fuel depth)).
      exact H.
    - eapply export_address_quiet. exact H. }
  destruct (prints_no_batch_range_trans _ _ _ H1 H2) as (new & Ht & Hp).
  cbn [log_event trace] in Ht.
  eexists. rewrite Ht, <- app_assoc. split; [reflexivity|].
  rewrite printed_batch_ranges_app, Hp. reflexivity.
Qed.

Lemma for_each_batches_print depth fuel self extract_dir array_address network
    (batches : list Z) : forall w w',
  for_each batches (extract_batch sdk_query depth fuel self extract_dir array_address
                      network) w = Done tt w' ->
  exists new,
    trace w' = trace w ++ new /\
    printed_batch_ranges new =
      map (fun i => (i * MAX_ADDRESS self, (i + 1) * MAX_ADDRESS self)) batches.
Proof.
  induction batches as [|i rest IH]; intros w w' H; cbn [for_each] in H.
  - inversion H; subst. exists []. rewrite app_nil_r. auto.
  - rewrite bind_run in H.
    destruct (extract_batch sdk_query depth fuel self extract_dir array_address network
                i w) as [[] w1| |] eqn:Hi; try discriminate.
    apply extract_batch_prints in Hi. destruct Hi as (n1 & Ht1 & Hp1).
    apply IH in H. destruct H as (n2 & Ht2 & Hp2).
    exists (n1 ++ n2). rewrite Ht2, Ht1, app_assoc. split; [reflexivity|].
    rewrite printed_batch_ranges_app, Hp1, Hp2. reflexivity.
Qed.

(** C5, as amended: the batches of the Batch Extractor, for a batch cap
    [M > 0] and [L] addresses. The loop runs the batch body for
    [i = 0, 1, ..., q - 1] in this order, where [q] is [ceil(L / M)], the
    integer with [(q - 1) * M < L <= q * M]. Batch [i] prints and uses the
    index pair [(i * M, (i + 1) * M)], whose end is not clamped to [L]:
    it queries the slice between the two indices and passes the frame on
    with the same pair; the pairs a returning run has printed are those of
    batches [0] to [q - 1], in this order. The slice of batch [i] is the
    addresses at the indices of [[i * M, (i + 1) * M)] clamped to [L]
    (the clamping is that of the slice). The clamped ranges are pairwise
    disjoint and cover exactly [[0, L)], and the slices put one after the
    other are the address list. *)
Theorem extract_transactions_net_batches depth fuel self extract_dir array_address
    network w :
  let L := Z.of_nat (length array_address) in
  let M := MAX_ADDRESS self in
  0 < M ->
  exists q,
    (q - 1) * M < L <= q * M /\
    extract_transactions_net sdk_query depth fuel self extract_dir array_address network w =
      for_each (py_range q)
        (extract_batch sdk_query depth fuel self extract_dir array_address network)
        (log_event (PrintExtractingNetwork network) w) /\
    length (py_range q) = Z.to_nat q /\
    (forall i : nat, (i < Z.to_nat q)%nat ->
       nth_error (py_range q) i = Some (Z.of_nat i)) /\
    (forall i w0,
       extract_batch sdk_query depth fuel self extract_dir array_address network i w0 =
       match get_transactions sdk_query fuel self
               (py_slice array_address (i * M) ((i + 1) * M)) network
               (log_event (PrintBatchRange (i * M) ((i + 1) * M)) w0) with
       | Done df w1 =>
           route_batch sdk_query depth fuel self extract_dir array_address network
             (i * M) ((i + 1) * M) df w1
       | Raised ex w1 => Raised ex w1
       | OutOfFuel => OutOfFuel
       end) /\
    (forall w',
       extract_transactions_net sdk_query depth fuel self extract_dir array_address
         network w = Done tt w' ->
       exists new,
         trace w' = trace w ++ new /\
         printed_batch_ranges new = map (fun i => (i * M, (i + 1) * M)) (py_range q)) /\
    (forall i, 0 <= i < q ->
       py_slice array_address (i * M) ((i + 1) * M) =
       firstn (Z.to_nat (Z.min ((i + 1) * M) L - i * M))
              (skipn (Z.to_nat (i * M)) array_address)) /\
    (forall j, 0 <= j < L <->
       exists i, In i (py_range q) /\ i * M <= j < Z.min ((i + 1) * M) L) /\
    (forall i i' j,
       i * M <= j < Z.min ((i + 1) * M) L ->
       i' * M <= j < Z.min ((i' + 1) * M) L -> i = i') /\
    concat (map (fun i => py_slice array_address (i * M) ((i + 1) * M)) (py_range q))
      = array_address.
Proof.
  cbv zeta. intros HM.
  set (L := Z.of_nat (length array_address)). set (M := MAX_ADDRESS self) in *.
  exists (batch_count L M).
  pose proof (batch_count_ceil L M HM) as Hq. set (q := batch_count L M) in *.
  assert (HL : 0 <= L) by (subst L; lia).
  split; [exact Hq|].
  split; [apply extract_transactions_net_run; exact HM|].
  split; [unfold py_range; rewrite length_map, length_seq; reflexivity|].
  split; [intros i Hi; apply py_range_nth; exact Hi|].
  split; [intros i w0; apply extract_batch_run|].
  split.
  { intros w' Hrun.
    rewrite (extract_transactions_net_run depth fuel self extract_dir array_address
               network w HM) in Hrun.
    apply for_each_batches_print in Hrun. destruct Hrun as (new & Ht & Hp).
    exists (PrintExtractingNetwork network :: new).
    cbn [log_event trace] in Ht. rewrite Ht, <- app_assoc. split; [reflexivity|].
    exact Hp. }
  split.
  { intros i Hi. rewrite py_slice_nonneg by nia. cbv zeta. fold L.
    replace (Z.min (i * M) L) with (i * M) by nia. reflexivity. }
  split.
  { intros j. split.
    - intros Hj. exists (j / M).
      pose proof (Z.div_mod j M ltac:(lia)) as Hdm.
      pose proof (Z.mod_pos_bound j M HM) as Hb.
      assert (0 <= j / M) by (apply Z.div_pos; lia).
      rewrite py_range_In. split; [nia|]. split; [nia|].
      apply Z.min_glb_lt; nia.
    - intros (i & Hi & Hj). apply py_range_In in Hi. nia. }
  split.
  { intros i i' j Hi Hi'.
    assert (i * M <= j < (i + 1) * M) by lia.
    assert (i' * M <= j < (i' + 1) * M) by lia.
    nia. }
  unfold py_range at 1.
  rewrite batches_concat by exact HM. fold L.
  replace (Z.min (Z.of_nat (Z.to_nat q) * M) L) with L by nia.
  subst L. rewrite Nat2Z.id. apply firstn_all.
Qed.

(** ** Cross-chain query text *)

(** C9 (the code departs from it): for an info type other than [label]
    and [tag], the exception of the third branch is built but not raised;
    what reaches the caller is the [UnboundLocalError] of the read of
    [table_name], not an invalid-info-type exception. No query text is
    returned. *)
Theorem invalid_info_type_is_not_raised self array_address info_type limit :
  info_type <> "label" ->
  info_type <> "tag" ->
  get_cross_chain_info_sql_query self array_address info_type limit =
    Err (UnboundLocalError "table_name") /\
  get_cross_chain_info_sql_query self array_address info_type limit <>
    Err (Exception "Invalid info type").
Proof.
  intros Hl Ht. unfold get_cross_chain_info_sql_query.
  apply String.eqb_neq in Hl, Ht. rewrite Hl, Ht. cbn.
  split; [reflexivity | discriminate].
Qed.

(** * Further properties of the module *)

(** ** Query text *)

Lemma string_app_cons (x : ascii) (a b : string) :
  String x a +:+ b = String x (a +:+ b).
Proof. reflexivity. Qed.

Lemma string_app_assoc (a b c : string) : (a +:+ b) +:+ c = a +:+ (b +:+ c).
Proof.
  induction a as [|x a IH]; [reflexivity|].
  rewrite !string_app_cons, IH. reflexivity.
Qed.

Lemma drop_last_snoc (s : string) (c : ascii) :
  drop_last (s +:+ String c EmptyString) = s.
Proof.
  induction s as [|x s IH]; [reflexivity|].
  rewrite string_app_cons. cbn [drop_last]. rewrite IH.
  destruct s; reflexivity.
Qed.

Lemma lower_literal_comma (a : string) :
  "LOWER('" +:+ a +:+ "')," = lower_literal a +:+ ",".
Proof. unfold lower_literal. rewrite !string_app_assoc. reflexivity. Qed.

Lemma get_string_address_fold rest : forall a acc,
  fold_left (fun acc add => acc +:+ "LOWER('" +:+ add +:+ "'),") (a :: rest) acc =
  acc +:+ String.concat "," (map lower_literal (a :: rest)) +:+ ",".
Proof.
  induction rest as [|b rest IH]; intros a acc.
  - cbn [fold_left map String.concat]. rewrite lower_literal_comma. reflexivity.
  - change (fold_left ?f (a :: b :: rest) acc)
      with (fold_left f (b :: rest) (f acc a)).
    rewrite IH. cbn beta. rewrite lower_literal_comma.
    change (String.concat "," (map lower_literal (a :: b :: rest)))
      with (lower_literal a +:+ "," +:+ String.concat "," (map lower_literal (b :: rest))).
    rewrite !string_app_assoc. reflexivity.
Qed.

(** X1: for a non-empty list, [get_string_address] is the addresses, each
    as [LOWER('address')], joined by commas: no comma after the last one.
    The address is written as it is given (no quoting, no change of
    case). For the empty list it is the empty string. *)
Theorem get_string_address_joins (a : string) (rest : list string) :
  get_string_address (a :: rest) = String.concat "," (map lower_literal (a :: rest)) /\
  get_string_address [] = "".
Proof.
  split; [|reflexivity].
  unfold get_string_address. rewrite get_string_address_fold.
  cbn [String.append]. apply (drop_last_snoc _ ","%char).
Qed.

(** ** Networks and batch caps outside the expected ones *)

Lemma get_transactions_sql_unsupported self array_address network :
  ~ supported_network network ->
  get_transactions_sql self array_address network =
  Err (Exception "Network not supported").
Proof.
  intros Hnot.
  destruct (get_transactions_sql self array_address network) as [sql|e] eqn:H.
  - exfalso. apply Hnot.
    apply (get_transactions_sql_supported self array_address). eauto.
  - revert H. unfold get_transactions_sql.
    repeat match goal with
           | |- context [if String.eqb ?a ?b then _ else _] =>
               destruct (String.eqb a b); [discriminate|]
           end.
    congruence.
Qed.

(** X2: for a network outside the six, [get_transactions] raises
    [Exception("Network not supported")] at once: the service is not
    called, nothing is printed or written, whatever the addresses and the
    fuel. *)
Theorem get_transactions_unsupported_network fuel self array_address network w :
  ~ supported_network network ->
  get_transactions sdk_query fuel self array_address network w =
  Raised (Exception "Network not supported") w.
Proof.
  intros Hnot. unfold get_transactions.
  rewrite (get_transactions_sql_unsupported self array_address network Hnot).
  reflexivity.
Qed.

(** X3: with a batch cap of 0, [extract_transactions_net] raises the
    [ZeroDivisionError] of [divmod] right after its first print, before any
    query, on every network and address list; [extract_transactions] then
    stops at its first network. *)
Theorem zero_batch_cap_raises depth fuel self extract_dir array_address network w :
  MAX_ADDRESS self = 0 ->
  extract_transactions_net sdk_query depth fuel self extract_dir array_address network w =
    Raised (ZeroDivisionError "integer division or modulo by zero")
      (log_event (PrintExtractingNetwork network) w) /\
  extract_transactions sdk_query depth fuel self extract_dir array_address w =
    Raised (ZeroDivisionError "integer division or modulo by zero")
      (log_event (PrintExtractingNetwork "ethereum") w).
Proof.
  intros HM.
  assert (Hnet : forall network w,
            extract_transactions_net sdk_query depth fuel self extract_dir array_address
              network w =
            Raised (ZeroDivisionError "integer division or modulo by zero")
              (log_event (PrintExtractingNetwork network) w)).
  { intros n w0. unfold extract_transactions_net, py_divmod. rewrite HM. reflexivity. }
  split; [apply Hnet|].
  unfold extract_transactions. cbn [for_each]. rewrite bind_run, Hnet. reflexivity.
Qed.

Lemma py_range_nonpos (q : Z) : q <= 0 -> py_range q = [].
Proof.
  intros Hq. unfold py_range. replace (Z.to_nat q) with 0%nat by lia. reflexivity.
Qed.

(** X4: [extract_transactions_net] runs no batch when the address list is
    empty (with a non-zero cap) or when the cap is negative, whatever the
    list: it prints its first line and returns, without any query or file,
    and without looking at the network, so that an unsupported network is
    not reported. *)
Theorem no_batch_without_addresses_or_with_negative_cap
    depth fuel self extract_dir array_address network w :
  (array_address = [] /\ MAX_ADDRESS self <> 0) \/ MAX_ADDRESS self < 0 ->
  extract_transactions_net sdk_query depth fuel self extract_dir array_address network w =
  Done tt (log_event (PrintExtractingNetwork network) w).
Proof.
  intros Hcase. unfold extract_transactions_net, py_divmod.
  destruct (MAX_ADDRESS self =? 0) eqn:E;
    [apply Z.eqb_eq in E; destruct Hcase as [[_ H]|H]; [contradiction | lia]|].
  apply Z.eqb_neq in E. run. rewrite py_range_nonpos; [reflexivity|].
  set (L := Z.of_nat (length array_address)). set (M := MAX_ADDRESS self) in *.
  destruct Hcase as [[Hnil _]|Hneg].
  - subst L. rewrite Hnil. cbn [length Z.of_nat].
    rewrite Z.div_0_l, Z.mod_0_l by exact E. cbn. lia.
  - assert (HL : 0 <= L) by (subst L; lia).
    pose proof (Z.div_mod L M E) as Hdm.
    pose proof (Z.mod_neg_bound L M Hneg) as Hb.
    destruct (L mod M =? 0) eqn:E0; cbn [negb].
    + apply Z.eqb_eq in E0. nia.
    + apply Z.eqb_neq in E0. nia.
Qed.

(** ** What reaches the caller *)

Lemma for_each_outcomes {A : Type} (xs : list A) (body : A -> M unit) :
  (forall x w, body x w = OutOfFuel \/ (exists w', body x w = Done tt w')
               \/ exists w', body x w = Raised recursion_error w') ->
  forall w, for_each xs body w = OutOfFuel \/ (exists w', for_each xs body w = Done tt w')
            \/ exists w', for_each xs body w = Raised recursion_error w'.
Proof.
  intros Hbody. induction xs as [|x xs IH]; intros w; cbn [for_each].
  - right. left. eexists. reflexivity.
  - rewrite bind_run. destruct (Hbody x w) as [H|[[w1 H]|[w1 H]]]; rewrite H.
    + left. reflexivity.
    + apply IH.
    + right. right. eauto.
Qed.

Lemma extract_batch_outcomes depth fuel self extract_dir array_address network i w :
  supported_network network ->
  extract_batch sdk_query depth fuel self extract_dir array_address network i w
    = OutOfFuel \/
  (exists w',
     extract_batch sdk_query depth fuel self extract_dir array_address network i w
       = Done tt w') \/
  exists w',
    extract_batch sdk_query depth fuel self extract_dir array_address network i w
      = Raised recursion_error w'.
Proof.
  intros Hnet. unfold extract_batch, mbind, M_bind, emit. cbn beta iota.
  match goal with
  | |- context [get_transactions _ ?f ?a ?sl ?n ?w0] =>
      destruct (get_transactions_returns f a sl n w0 Hnet) as [H|(df & w1 & H)]
  end; rewrite H; [left; reflexivity|].
  unfold route_batch.
  destruct ((shape0 df =? 0) || py_eq (shape df) (PyInt (MAX_ROWS self)))%bool.
  - apply (retry_outcomes self array_address network extract_dir fuel Hnet depth).
  - right. left. rewrite export_address_run. eauto.
Qed.

Lemma extract_transactions_net_outcomes depth fuel self extract_dir array_address
    network w :
  supported_network network ->
  MAX_ADDRESS self <> 0 ->
  extract_transactions_net sdk_query depth fuel self extract_dir array_address network w
    = OutOfFuel \/
  (exists w',
     extract_transactions_net sdk_query depth fuel self extract_dir array_address
       network w = Done tt w') \/
  exists w',
    extract_transactions_net sdk_query depth fuel self extract_dir array_address
      network w = Raised recursion_error w'.
Proof.
  intros Hnet HM. unfold extract_transactions_net, py_divmod.
  destruct (MAX_ADDRESS self =? 0) eqn:E; [apply Z.eqb_eq in E; contradiction|].
  run. apply for_each_outcomes. intros i w0.
  apply extract_batch_outcomes. exact Hnet.
Qed.

(** X5: with a batch cap other than 0, the only exception that
    [extract_transactions] can raise to its caller is the [RecursionError]
    of the Range Splitter, whatever the service does: a run returns, does
    not end, or ends with [RecursionError]. Failures of the service never
    surface, and the six networks it goes through are all supported. *)
Theorem extract_transactions_raises_only_recursion_error
    depth fuel self extract_dir array_address w :
  MAX_ADDRESS self <> 0 ->
  extract_transactions sdk_query depth fuel self extract_dir array_address w = OutOfFuel \/
  (exists w',
     extract_transactions sdk_query depth fuel self extract_dir array_address w
       = Done tt w') \/
  exists w',
    extract_transactions sdk_query depth fuel self extract_dir array_address w
      = Raised recursion_error w'.
Proof.
  intros HM. unfold extract_transactions.
  assert (Hall : Forall supported_network
            ["ethereum"; "polygon"; "arbitrum"; "avalanche"; "gnosis"; "optimism"]).
  { repeat (constructor; [unfold supported_network; cbn [In]; tauto|]). constructor. }
  revert w. induction Hall as [|n l Hn Hl IH]; intros w; cbn [for_each].
  - right. left. eexists. reflexivity.
  - rewrite bind_run.
    destruct (extract_transactions_net_outcomes depth fuel self extract_dir array_address
                n w Hn HM) as [H|[[w1 H]|[w1 H]]]; rewrite H.
    + left. reflexivity.
    + apply IH.
    + right. right. eauto.
Qed.

(** ** Files *)

Lemma save_csv_run df path_to_export csv_file w :
  save_csv df path_to_export csv_file w =
  let existed :=
    (bool_decide (path_to_export ∈ dirs w)
     || bool_decide (is_Some (files w !! path_to_export)))%bool in
  Done tt
    {| sdk := sdk w;
       trace := trace w ++ (if existed then [] else [Makedirs path_to_export])
                        ++ [ToCsv csv_file df];
       dirs := if existed then dirs w else {[path_to_export]} ∪ dirs w;
       files := <[csv_file := df]> (files w) |}.
Proof.
  unfold save_csv, os_path_exists, os_makedirs, to_csv. run.
  destruct (bool_decide _ || bool_decide _)%bool; cbn [negb]; run;
    rewrite <- ?app_assoc; reflexivity.
Qed.

(** X6: [save_csv] overwrites and creates the directory once. Saving [d1]
    and then [d2] under the same names leaves the same directories and
    files as saving [d2] alone: the file holds [d2], and the second call
    only writes the file (its directory exists by then). *)
Theorem save_csv_overwrites (d1 d2 : DataFrame) path_to_export csv_file w :
  exists w1 w2 w2',
    save_csv d1 path_to_export csv_file w = Done tt w1 /\
    save_csv d2 path_to_export csv_file w1 = Done tt w2 /\
    save_csv d2 path_to_export csv_file w = Done tt w2' /\
    files w2 = files w2' /\ dirs w2 = dirs w2' /\
    files w2 !! csv_file = Some d2 /\
    trace w2 = trace w1 ++ [ToCsv csv_file d2].
Proof.
  pose proof (save_csv_run d1 path_to_export csv_file w) as H1.
  pose proof (save_csv_run d2 path_to_export csv_file w) as H2'.
  cbv zeta in H1, H2'.
  set (ex := (bool_decide (path_to_export ∈ dirs w)
              || bool_decide (is_Some (files w !! path_to_export)))%bool) in *.
  match type of H1 with _ = Done tt ?x => set (w1 := x) in * end.
  pose proof (save_csv_run d2 path_to_export csv_file w1) as H2. cbv zeta in H2.
  assert (Hex1 : (bool_decide (path_to_export ∈ dirs w1)
                  || bool_decide (is_Some (files w1 !! path_to_export)))%bool = true).
  { subst w1. cbn [dirs files]. destruct ex eqn:E.
    - subst ex. apply orb_true_iff in E. apply orb_true_iff.
      rewrite !bool_decide_eq_true in *. destruct E as [E|E]; [left; exact E|].
      right. apply lookup_insert_is_Some'. right. exact E.
    - apply orb_true_iff. left. apply bool_decide_eq_true.
      apply elem_of_union_l, elem_of_singleton. reflexivity. }
  rewrite Hex1 in H2.
  eexists _, _, _. split; [exact H1|]. split; [exact H2|]. split; [exact H2'|].
  cbn [files dirs trace]. subst w1. cbn [files dirs trace app].
  split; [apply insert_insert_eq|].
  split; [reflexivity|].
  split; [apply lookup_insert_eq | reflexivity].
Qed.

Lemma csv_write_events_app t1 t2 :
  csv_write_events (t1 ++ t2) = csv_write_events t1 ++ csv_write_events t2.
Proof. unfold csv_write_events. apply flat_map_app. Qed.

(** What the loop body for one address adds to and keeps of the world. *)
Lemma exported_effects df extract_dir network address w :
  let w' := exported df extract_dir network address w in
  let sel := select_address df address in
  sdk w' = sdk w /\
  (exists new,
     trace w' = trace w ++ new /\
     sdk_calls new = [] /\
     csv_write_events new =
       match sel with
       | [] => []
       | _ :: _ => [(csv_path extract_dir network address, sel)]
       end) /\
  dirs w ⊆ dirs w' /\
  dirs w' ⊆ {[os_path_join extract_dir network]} ∪ dirs w /\
  (forall p, (sel <> [] -> p <> csv_path extract_dir network address) ->
             files w' !! p = files w !! p) /\
  (forall p, is_Some (files w !! p) -> is_Some (files w' !! p)).
Proof.
  cbv zeta. unfold exported, csv_path.
  destruct (select_address df address) as [|r sel].
  - split; [reflexivity|]. split; [exists []; rewrite app_nil_r; auto|].
    repeat split; auto. apply union_subseteq_r.
  - cbn [sdk trace dirs files].
    split; [reflexivity|]. split.
    { eexists. split; [reflexivity|].
      destruct (bool_decide _ || bool_decide _)%bool; split; reflexivity. }
    split; [destruct (bool_decide _ || bool_decide _)%bool;
            [reflexivity | apply union_subseteq_r]|].
    split; [destruct (bool_decide _ || bool_decide _)%bool;
            [apply union_subseteq_r | reflexivity]|].
    split.
    + intros p Hp. apply lookup_insert_ne. intros Heq. apply Hp; [discriminate|].
      symmetry. exact Heq.
    + intros p Hp. apply lookup_insert_is_Some'. right. exact Hp.
Qed.

Lemma exported_fold_writes df extract_dir network np_address : forall w,
  exists new,
    trace (fold_left (fun w a => exported df extract_dir network a w) np_address w) =
      trace w ++ new /\
    csv_write_events new =
      flat_map (fun address =>
                  match select_address df address with
                  | [] => []
                  | sel => [(csv_path extract_dir network address, sel)]
                  end) np_address /\
    sdk_calls new = [] /\
    sdk (fold_left (fun w a => exported df extract_dir network a w) np_address w) = sdk w.
Proof.
  induction np_address as [|a rest IH]; intros w; cbn [fold_left flat_map].
  - exists []. rewrite app_nil_r. auto.
  - destruct (exported_effects df extract_dir network a w)
      as (Hs & (new1 & Ht1 & Hc1 & Hw1) & _).
    destruct (IH (exported df extract_dir network a w)) as (new2 & Ht2 & Hw2 & Hc2 & Hs2).
    exists (new1 ++ new2).
    split; [rewrite Ht2, Ht1, app_assoc; reflexivity|].
    split.
    { rewrite csv_write_events_app, Hw1, Hw2.
      destruct (select_address df a); reflexivity. }
    split; [rewrite sdk_calls_app, Hc1, Hc2; reflexivity | congruence].
Qed.

(** X7: the writes of [export_address], over the whole slice. When the
    run returns, the files it has written are, in the order of the slice
    and once per occurrence of an address, the file of each address with
    at least one row, each with exactly the rows selected for the address;
    the service has not been called and its state is not changed. *)
Theorem export_address_writes df np_address extract_dir network w w' :
  export_address df np_address extract_dir network w = Done tt w' ->
  exists new,
    trace w' = trace w ++ new /\
    csv_write_events new =
      flat_map (fun address =>
                  match select_address df address with
                  | [] => []
                  | sel => [(csv_path extract_dir network address, sel)]
                  end) np_address /\
    sdk_calls new = [] /\
    sdk w' = sdk w.
Proof.
  rewrite export_address_run. intros H. inversion H; subst. clear H.
  apply exported_fold_writes.
Qed.

(** X8: [export_address] never removes anything. When the run returns,
    the directories and files that existed before it still exist, and a
    path that is not the file of an address of the slice with selected
    rows holds what it held. *)
Theorem export_address_preserves df np_address extract_dir network w w' :
  export_address df np_address extract_dir network w = Done tt w' ->
  dirs w ⊆ dirs w' /\
  (forall p, is_Some (files w !! p) -> is_Some (files w' !! p)) /\
  (forall p,
     (forall address, In address np_address ->
                      select_address df address <> [] ->
                      p <> csv_path extract_dir network address) ->
     files w' !! p = files w !! p).
Proof.
  rewrite export_address_run. intros H. inversion H; subst. clear H.
  revert w. induction np_address as [|a rest IH]; intros w; cbn [fold_left].
  - repeat split; auto.
  - destruct (exported_effects df extract_dir network a w)
      as (_ & _ & Hd1 & _ & Hf1 & Hs1).
    destruct (IH (exported df extract_dir network a w)) as (Hd3 & Hs2 & Hf2).
    split; [etransitivity; eassumption|].
    split; [intros p Hp; apply Hs2, Hs1, Hp|].
    intros p Hp. rewrite Hf2.
    + apply Hf1. intros Hsel. apply Hp; [left; reflexivity | exact Hsel].
    + intros address Hin. apply Hp. right. exact Hin.
Qed.

(** ** More on the Paginator *)

(** X9: the Paginator has no bound on the number of pages. When every
    page the service returns for the query has exactly [PAGE_SIZE] rows,
    [execute_query] never returns: every amount of fuel is used up. *)
Theorem execute_query_full_pages_never_returns self sql :
  (forall st call,
     q_sql call = sql ->
     exists rs, snd (sdk_query st call) = Ok rs /\
                nrows (records rs) = PAGE_SIZE self) ->
  forall fuel w, execute_query sdk_query fuel self sql w = OutOfFuel.
Proof.
  intros Hfull.
  assert (Hloop : forall fuel p acc w,
            execute_query_loop sdk_query fuel self sql (PAGE_SIZE self) p acc w
            = OutOfFuel).
  { induction fuel as [|fuel IH]; intros p acc w;
      cbn [execute_query_loop]; rewrite Z.eqb_refl; [reflexivity|].
    rewrite bind_run, execute_query_page_run. cbv zeta.
    destruct (Hfull (sdk w) (query_call self sql p) eq_refl) as (rs & Hrs & Hn).
    rewrite Hrs. unfold shape0, pd_DataFrame. rewrite Hn. apply IH. }
  intros fuel w. unfold execute_query. rewrite bind_run, Hloop. reflexivity.
Qed.

(** Every returning run of the loop comes from a run of full pages ended
    by a page that is not full. *)
Lemma execute_query_loop_pages fuel : forall self sql p acc w l w',
  execute_query_loop sdk_query fuel self sql (PAGE_SIZE self) p acc w = Done l w' ->
  exists (N : nat) pages,
    fetch_pages sdk_query (S N) self sql p w = (pages, w') /\
    l = acc ++ pages /\
    (N < fuel)%nat /\
    (forall k df, (k < N)%nat -> pages !! k = Some df -> nrows df = PAGE_SIZE self) /\
    (forall df, pages !! N = Some df -> nrows df <> PAGE_SIZE self).
Proof.
  induction fuel as [|fuel IH]; intros self sql p acc w l w' H;
    cbn [execute_query_loop] in H; rewrite Z.eqb_refl in H; [discriminate|].
  rewrite bind_run in H.
  destruct (execute_query_page_done self sql p w) as (df & w1 & _ & Hrun & _).
  rewrite Hrun in H. unfold shape0 in H.
  destruct (nrows df =? PAGE_SIZE self) eqn:E.
  - apply Z.eqb_eq in E. rewrite E in H. apply IH in H.
    destruct H as (N & pages & Hf & Hl & Hlt & Hfull & Hlast).
    exists (S N), (df :: pages). rewrite fetch_pages_S, Hrun, Hf.
    split; [reflexivity|]. split; [rewrite Hl, <- app_assoc; reflexivity|].
    split; [lia|]. split.
    + intros [|k] d Hk Hd; [cbn in Hd; congruence|].
      apply (Hfull k d); [lia | exact Hd].
    + intros d Hd. apply Hlast. exact Hd.
  - assert (Hret : l = acc ++ [df] /\ w' = w1).
    { destruct fuel; cbn [execute_query_loop] in H; rewrite E in H;
        inversion H; auto. }
    destruct Hret as [-> ->].
    exists 0%nat, [df]. rewrite fetch_pages_S, Hrun. cbn [fetch_pages].
    split; [reflexivity|]. split; [reflexivity|]. split; [lia|]. split.
    + intros k d Hk. lia.
    + intros d Hd. cbn in Hd. inversion Hd; subst. apply Z.eqb_neq. exact E.
Qed.

(** X10: what a frame returned by the Paginator is made of. Whenever
    [execute_query] returns, it has fetched pages 1 to N + 1 for some N
    below the fuel, the first N with exactly [PAGE_SIZE] rows and the last
    with another row count, and the frame is these pages put together in
    this order; the file system is as before. A failed page counts as an
    empty one, so a failure is never told from the end of the data. *)
Theorem execute_query_returns_fetched_pages fuel self sql w df w' :
  execute_query sdk_query fuel self sql w = Done df w' ->
  exists (N : nat) pages wN,
    fetch_pages sdk_query (S N) self sql 1 w = (pages, wN) /\
    df = concat pages /\
    length pages = S N /\
    (N < fuel)%nat /\
    (forall k d, (k < N)%nat -> pages !! k = Some d -> nrows d = PAGE_SIZE self) /\
    (forall d, pages !! N = Some d -> nrows d <> PAGE_SIZE self) /\
    nrows df = Z.of_nat N * PAGE_SIZE self + nrows (List.last pages []) /\
    dirs w' = dirs w /\ files w' = files w.
Proof.
  intros H.
  destruct (execute_query_done _ _ _ _ _ _ H) as (_ & _ & _ & Hd & Hfs).
  unfold execute_query in H. rewrite bind_run in H.
  destruct (execute_query_loop sdk_query fuel self sql (PAGE_SIZE self) 1 [] w)
    as [l w1| |] eqn:Hloop; try discriminate.
  apply execute_query_loop_pages in Hloop.
  destruct Hloop as (N & pages & Hf & Hl & Hlt & Hfull & Hlast).
  cbn [app] in Hl. subst l.
  destruct (fetch_pages_trace _ _ _ _ _ _ _ Hf) as (Hlen & _).
  assert (Hdf : df = concat pages).
  { destruct pages as [|pg pages]; [discriminate|].
    cbv beta iota delta [pd_concat mbind M_bind mret M_ret emit raise lift] in H.
    lazymatch type of H with context [if ?c then _ else _] => destruct c end;
      cbn beta iota in H; congruence. }
  exists N, pages, w1. repeat split; auto.
  subst df. clear H Hf Hd Hfs Hlt Hlast. revert N Hlen Hfull.
  induction pages as [|pg pages IH]; intros N Hlen Hfull; [discriminate|].
  destruct pages as [|pg2 pages].
  - cbn in Hlen. assert (N = 0%nat) by lia. subst N.
    cbn [concat List.last]. rewrite app_nil_r. lia.
  - destruct N as [|N]; [cbn in Hlen; lia|].
    change (concat (pg :: pg2 :: pages)) with (pg ++ concat (pg2 :: pages)).
    change (List.last (pg :: pg2 :: pages) []) with (List.last (pg2 :: pages) []).
    unfold nrows in *. rewrite length_app, Nat2Z.inj_add.
    assert (Hlen' : length (pg2 :: pages) = S N) by (cbn in Hlen |- *; lia).
    assert (Hfull' : forall k d, (k < N)%nat -> (pg2 :: pages) !! k = Some d ->
                                 Z.of_nat (length d) = PAGE_SIZE self).
    { intros k d Hk Hd. apply (Hfull (S k) d); [lia | exact Hd]. }
    rewrite (IH N Hlen' Hfull').
    assert (Hpg : Z.of_nat (length pg) = PAGE_SIZE self).
    { apply (Hfull 0%nat pg); [lia | reflexivity]. }
    lia.
Qed.

(** ** More on the Range Splitter and the batches *)

(** A slice that starts at or past the end of the list is empty. *)
Lemma py_slice_beyond {A : Type} (l : list A) (start stop : Z) :
  Z.of_nat (length l) <= start -> py_slice l start stop = [].
Proof.
  intros Hs. unfold py_slice, slice_index.
  destruct (start <? 0) eqn:E1; [apply Z.ltb_lt in E1; lia|].
  replace (Z.to_nat _) with 0%nat; [reflexivity|].
  destruct (stop <? 0) eqn:E2; [apply Z.ltb_lt in E2 | apply Z.ltb_ge in E2]; lia.
Qed.

Lemma retry_beyond_never_returns self array_address network extract_dir sql fuel :
  get_transactions_sql self [] network = Ok sql ->
  empty_for sdk_query sql ->
  forall depth,
    (forall s e w,
       Z.of_nat (length array_address) <= s -> Z.of_nat (length array_address) <= e ->
       extract_transactions_rec sdk_query depth fuel self array_address s e
         network extract_dir w = OutOfFuel \/
       exists w',
         extract_transactions_rec sdk_query depth fuel self array_address s e
           network extract_dir w = Raised recursion_error w') /\
    (forall s e w,
       Z.of_nat (length array_address) <= s -> Z.of_nat (length array_address) <= e ->
       extract_transactions_between_rec sdk_query depth fuel self array_address s e
         network extract_dir w = OutOfFuel \/
       exists w',
         extract_transactions_between_rec sdk_query depth fuel self array_address s e
           network extract_dir w = Raised recursion_error w').
Proof.
  intros Hsql Hempty. induction depth as [|depth [IHrec IHbetween]].
  - split; intros; right; eexists; reflexivity.
  - split; intros s e w Hs He.
    + rewrite extract_transactions_rec_S.
      destruct (IHbetween s ((s + e) / 2) (log_event PrintRetrying w) Hs) as [H|[w1 H]];
        [apply Z.div_le_lower_bound; lia | rewrite H; left; reflexivity
         | rewrite H; right; eauto].
    + rewrite extract_transactions_between_rec_S, py_slice_beyond by exact Hs.
      rewrite (get_transactions_run _ _ _ _ _ _ Hsql).
      destruct (execute_query_empty sql Hempty fuel self
                  (log_event (PrintRetryRange s e) w)) as [H|[w1 H]]; rewrite H.
      * left. reflexivity.
      * cbn. apply IHrec; assumption.
Qed.

(** X11: the end index a batch passes on is [(i + 1) * MAX_ADDRESS], not
    clamped to the list, so the Range Splitter can be given indices past
    the end of the list. When the query of no address at all never brings
    a row: a retry on a range lying at or past the end of the list never
    returns normally, its only way out being the [RecursionError] of the
    recursion limit (a run of the Paginator that does not end apart); so
    does the Range Splitter on a range whose middle is at or past the
    end, even though its left half may succeed; and so a batch with an
    empty frame and at most half a cap of addresses is never completed. *)
Theorem retry_past_end_never_returns self array_address network extract_dir sql :
  get_transactions_sql self [] network = Ok sql ->
  empty_for sdk_query sql ->
  let L := Z.of_nat (length array_address) in
  (forall depth fuel s e w,
     L <= s -> L <= e ->
     extract_transactions_between_rec sdk_query depth fuel self array_address s e
       network extract_dir w = OutOfFuel \/
     exists w',
       extract_transactions_between_rec sdk_query depth fuel self array_address s e
         network extract_dir w = Raised recursion_error w') /\
  (forall depth fuel s e w,
     L <= (s + e) / 2 -> L <= e ->
     extract_transactions_rec sdk_query depth fuel self array_address s e
       network extract_dir w = OutOfFuel \/
     exists w',
       extract_transactions_rec sdk_query depth fuel self array_address s e
         network extract_dir w = Raised recursion_error w') /\
  (forall depth fuel i w df,
     nrows df = 0 ->
     L <= (i * MAX_ADDRESS self + (i + 1) * MAX_ADDRESS self) / 2 ->
     L <= (i + 1) * MAX_ADDRESS self ->
     route_batch sdk_query depth fuel self extract_dir array_address network
       (i * MAX_ADDRESS self) ((i + 1) * MAX_ADDRESS self) df w = OutOfFuel \/
     exists w',
       route_batch sdk_query depth fuel self extract_dir array_address network
         (i * MAX_ADDRESS self) ((i + 1) * MAX_ADDRESS self) df w
       = Raised recursion_error w').
Proof.
  intros Hsql Hempty L.
  assert (Hnet : supported_network network).
  { apply (get_transactions_sql_supported self []). eauto. }
  assert (Hrec : forall depth fuel s e w,
            L <= (s + e) / 2 -> L <= e ->
            extract_transactions_rec sdk_query depth fuel self array_address s e
              network extract_dir w = OutOfFuel \/
            exists w',
              extract_transactions_rec sdk_query depth fuel self array_address s e
                network extract_dir w = Raised recursion_error w').
  { intros [|depth] fuel s e w Hmid He; [right; eexists; reflexivity|].
    rewrite extract_transactions_rec_S.
    destruct (proj2 (retry_outcomes self array_address network extract_dir fuel
                       Hnet depth) s ((s + e) / 2) (log_event PrintRetrying w))
      as [H|[[w1 H]|[w1 H]]]; rewrite H.
    - left. reflexivity.
    - apply (retry_beyond_never_returns self array_address network extract_dir sql fuel
               Hsql Hempty depth); assumption.
    - right. eauto. }
  split; [|split].
  - intros depth fuel s e w Hs He.
    apply (retry_beyond_never_returns self array_address network extract_dir sql fuel
             Hsql Hempty depth); assumption.
  - exact Hrec.
  - intros depth fuel i w df Hrows Hmid He. unfold route_batch, shape0.
    rewrite Hrows. cbn [Z.eqb orb]. apply Hrec; assumption.
Qed.

(** X12: the batches of [extract_transactions_net] are never empty and
    never above the cap. For a cap [M > 0], the loop runs the batch body
    over [range(q)], and the slice that the body of each of these batches
    queries has at least one and at most [M] addresses. *)
Theorem batch_slices_within_cap depth fuel self extract_dir
    (array_address : list string) network w :
  let L := Z.of_nat (length array_address) in
  let M := MAX_ADDRESS self in
  0 < M ->
  extract_transactions_net sdk_query depth fuel self extract_dir array_address network w =
    for_each (py_range (batch_count L M))
      (extract_batch sdk_query depth fuel self extract_dir array_address network)
      (log_event (PrintExtractingNetwork network) w) /\
  forall i, In i (py_range (batch_count L M)) ->
    1 <= Z.of_nat (length (py_slice array_address (i * M) ((i + 1) * M))) <= M /\
    forall w0,
      extract_batch sdk_query depth fuel self extract_dir array_address network i w0 =
      match get_transactions sdk_query fuel self
              (py_slice array_address (i * M) ((i + 1) * M)) network
              (log_event (PrintBatchRange (i * M) ((i + 1) * M)) w0) with
      | Done df w1 =>
          route_batch sdk_query depth fuel self extract_dir array_address network
            (i * M) ((i + 1) * M) df w1
      | Raised ex w1 => Raised ex w1
      | OutOfFuel => OutOfFuel
      end.
Proof.
  cbv zeta. intros HM.
  split; [apply extract_transactions_net_run; exact HM|].
  intros i Hi. split; [|intros w0; apply extract_batch_run].
  set (L := Z.of_nat (length array_address)) in *. set (M := MAX_ADDRESS self) in *.
  apply py_range_In in Hi. pose proof (batch_count_ceil L M HM) as Hq.
  rewrite py_slice_nonneg by nia. cbv zeta. fold L.
  rewrite length_firstn, length_skipn.
  assert (HL : L = Z.of_nat (length array_address)) by reflexivity.
  assert (i * M < L) by nia.
  assert (Z.min ((i + 1) * M) L - Z.min (i * M) L <= M) by lia.
  assert (1 <= Z.min ((i + 1) * M) L - Z.min (i * M) L) by lia.
  lia.
Qed.

(** ** Cross-chain query text *)

(** X13: [get_cross_chain_info_sql_query] returns a query text exactly
    for the info types [label] and [tag]; the table of the text is then
    [crosschain.address_labels], respectively [crosschain.address_tags]. *)
Theorem get_cross_chain_info_sql_query_returns_iff self array_address info_type limit :
  ((exists sql, get_cross_chain_info_sql_query self array_address info_type limit = Ok sql)
   <-> info_type = "label" \/ info_type = "tag") /\
  (forall table,
     (info_type = "label" /\ table = "crosschain.address_labels") \/
     (info_type = "tag" /\ table = "crosschain.address_tags") ->
     get_cross_chain_info_sql_query self array_address info_type limit =
     Ok (sql_text indent16
           ["SELECT *";
            "FROM " +:+ table;
            "WHERE ADDRESS IN (" +:+ get_string_address array_address +:+ ")";
            string_limit limit +:+ ";"])).
Proof.
  split.
  - unfold get_cross_chain_info_sql_query.
    destruct (String.eqb_spec info_type "label") as [Hl|Hl];
      [split; [auto | eexists; reflexivity]|].
    destruct (String.eqb_spec info_type "tag") as [Ht|Ht];
      [split; [auto | eexists; reflexivity]|].
    cbn. split; [intros [sql H]; discriminate | intros [H|H]; contradiction].
  - intros table [[-> ->]|[-> ->]]; reflexivity.
Qed.

(** ** The run without retry *)

Lemma for_each_done {A : Type} (xs : list A) (body : A -> M unit) :
  (forall x w, exists w', body x w = Done tt w') ->
  forall w, exists w', for_each xs body w = Done tt w'.
Proof.
  intros Hbody. induction xs as [|x xs IH]; intros w; cbn [for_each].
  - eexists. reflexivity.
  - rewrite bind_run. destruct (Hbody x w) as [w1 H]. rewrite H. apply IH.
Qed.

Section ShortPages.

Variable self : FlipsideApi.

(** Every call is answered by a page with rows, but not a full one. *)
Hypothesis short_pages :
  forall st call,
    exists rs, snd (sdk_query st call) = Ok rs /\
               records rs <> [] /\ nrows (records rs) <> PAGE_SIZE self.

Lemma execute_query_short fuel sql w :
  exists df w', execute_query sdk_query (S fuel) self sql w = Done df w' /\ df <> [].
Proof.
  unfold execute_query. rewrite bind_run.
  cbn [execute_query_loop]. rewrite Z.eqb_refl, bind_run, execute_query_page_run.
  cbv zeta.
  destruct (short_pages (sdk w) (query_call self sql 1)) as (rs & Hrs & Hne & Hsz).
  rewrite Hrs. unfold pd_DataFrame, shape0.
  assert (Hloop : forall acc w0,
            execute_query_loop sdk_query fuel self sql (nrows (records rs)) (1 + 1) acc w0
            = Done acc w0).
  { intros acc w0. apply Z.eqb_neq in Hsz.
    destruct fuel; cbn [execute_query_loop]; rewrite Hsz; reflexivity. }
  rewrite Hloop. cbn [app pd_concat concat]. rewrite app_nil_r. run.
  destruct (nrows (records rs) =? MAX_ROWS self); run; eauto.
Qed.

Lemma extract_batch_short depth fuel extract_dir array_address network i w :
  supported_network network ->
  exists w',
    extract_batch sdk_query depth (S fuel) self extract_dir array_address network i w
    = Done tt w'.
Proof.
  intros Hnet. unfold extract_batch, mbind, M_bind, emit. cbn beta iota.
  match goal with
  | |- context [get_transactions _ _ _ ?sl _ ?w0] =>
      destruct (proj1 (get_transactions_sql_supported self sl network) Hnet) as [sql Hsql];
      rewrite (get_transactions_run (S fuel) self sl network sql w0 Hsql);
      destruct (execute_query_short fuel sql w0) as (df & w1 & Hq & Hne)
  end.
  rewrite Hq. unfold route_batch, shape0.
  assert (Hrows : (nrows df =? 0) = false).
  { apply Z.eqb_neq. destruct df; [contradiction|]. unfold nrows. cbn [length]. lia. }
  rewrite Hrows, shape_never_int. cbn [orb].
  rewrite export_address_run. eauto.
Qed.

(** X14: the run in which nothing goes wrong needs no retry. When every
    call of the service is answered by a page that has rows and is not
    full, and the batch cap is not 0, [extract_transactions] returns on
    the six networks with a single unit of fuel and whatever room the
    recursion limit leaves, none included: one page per batch, and no call
    of the Range Splitter. *)
Theorem extract_transactions_returns_without_retry depth fuel extract_dir array_address w :
  MAX_ADDRESS self <> 0 ->
  exists w',
    extract_transactions sdk_query depth (S fuel) self extract_dir array_address w = Done tt w'.
Proof.
  intros HM. unfold extract_transactions.
  assert (Hall : Forall supported_network
            ["ethereum"; "polygon"; "arbitrum"; "avalanche"; "gnosis"; "optimism"]).
  { repeat (constructor; [unfold supported_network; cbn [In]; tauto|]). constructor. }
  revert w. induction Hall as [|n l Hn Hl IH]; intros w; cbn [for_each].
  - eexists. reflexivity.
  - rewrite bind_run.
    assert (Hnet : exists w1,
              extract_transactions_net sdk_query depth (S fuel) self extract_dir
                array_address n w = Done tt w1).
    { unfold extract_transactions_net, py_divmod.
      destruct (MAX_ADDRESS self =? 0) eqn:E; [apply Z.eqb_eq in E; contradiction|].
      run. apply for_each_done. intros i w0. apply extract_batch_short. exact Hn. }
    destruct Hnet as [w1 H]. rewrite H. apply IH.
Qed.

End ShortPages.

(** ** What the extraction leaves of the file system *)

Lemma fs_extends_refl extract_dir array_address w :
  fs_extends extract_dir array_address w w.
Proof. repeat split; auto. Qed.

Lemma fs_extends_trans extract_dir array_address w1 w2 w3 :
  fs_extends extract_dir array_address w1 w2 ->
  fs_extends extract_dir array_address w2 w3 ->
  fs_extends extract_dir array_address w1 w3.
Proof.
  intros (Hd1 & Hs1 & Hf1) (Hd2 & Hs2 & Hf2). repeat split.
  - etransitivity; eassumption.
  - intros p Hp. apply Hs2, Hs1, Hp.
  - intros p Hp. rewrite Hf2, Hf1 by exact Hp. reflexivity.
Qed.

Lemma fs_extends_same extract_dir array_address w w' :
  dirs w' = dirs w -> files w' = files w ->
  fs_extends extract_dir array_address w w'.
Proof. intros Hd Hf. unfold fs_extends. rewrite Hd, Hf. repeat split; auto. Qed.

Lemma In_py_slice {A : Type} (l : list A) (start stop : Z) (x : A) :
  In x (py_slice l start stop) -> In x l.
Proof.
  unfold py_slice. intros H.
  set (n := Z.to_nat (slice_index (Z.of_nat (length l)) start)) in *.
  rewrite <- (firstn_skipn n l). apply in_or_app. right.
  match type of H with
  | In x (firstn ?m ?r) => rewrite <- (firstn_skipn m r); apply in_or_app; left; exact H
  end.
Qed.

Lemma export_address_fs_extends df np_address extract_dir network array_address : forall w,
  (forall a, In a np_address -> In a array_address) ->
  fs_extends extract_dir array_address w
    (fold_left (fun w a => exported df extract_dir network a w) np_address w).
Proof.
  induction np_address as [|a rest IH]; intros w Hsub; cbn [fold_left].
  - apply fs_extends_refl.
  - eapply fs_extends_trans; [|apply IH; intros b Hb; apply Hsub; right; exact Hb].
    destruct (exported_effects df extract_dir network a w)
      as (_ & _ & Hd1 & _ & Hf1 & Hs1).
    repeat split; auto.
    intros p Hp. apply Hf1. intros _. apply Hp. apply Hsub. left. reflexivity.
Qed.

Lemma get_transactions_fs fuel self addresses network w df w' :
  get_transactions sdk_query fuel self addresses network w = Done df w' ->
  dirs w' = dirs w /\ files w' = files w.
Proof.
  unfold get_transactions. rewrite bind_run.
  destruct (get_transactions_sql self addresses network) as [sql|e];
    cbv beta iota delta [lift mret M_ret raise]; [|discriminate].
  rewrite bind_run.
  destruct (execute_query sdk_query fuel self sql w) as [d w1| |] eqn:H; try discriminate.
  cbv beta iota delta [mret M_ret]. intros Heq. inversion Heq; subst.
  destruct (execute_query_done _ _ _ _ _ _ H) as (_ & _ & _ & Hd & Hf). auto.
Qed.

Lemma retry_fs_extends self array_address network extract_dir fuel :
  forall depth,
    (forall s e w w',
       extract_transactions_rec sdk_query depth fuel self array_address s e
         network extract_dir w = Done tt w' ->
       fs_extends extract_dir array_address w w') /\
    (forall s e w w',
       extract_transactions_between_rec sdk_query depth fuel self array_address s e
         network extract_dir w = Done tt w' ->
       fs_extends extract_dir array_address w w').
Proof.
  induction depth as [|depth [IHrec IHbetween]].
  - split; intros; discriminate.
  - split; intros s e w w' H.
    + rewrite extract_transactions_rec_S in H.
      destruct (extract_transactions_between_rec sdk_query depth fuel self array_address s
                  ((s + e) / 2) network extract_dir (log_event PrintRetrying w))
        as [[] w1| |] eqn:H1; try discriminate.
      apply IHbetween in H1. apply IHbetween in H.
      eapply fs_extends_trans; [|exact H].
      eapply fs_extends_trans; [|exact H1].
      apply fs_extends_same; reflexivity.
    + rewrite extract_transactions_between_rec_S in H.
      destruct (get_transactions sdk_query fuel self (py_slice array_address s e) network
                  (log_event (PrintRetryRange s e) w)) as [df w1| |] eqn:H1;
        try discriminate.
      apply get_transactions_fs in H1. destruct H1 as [Hd Hf].
      eapply fs_extends_trans; [apply (fs_extends_same _ _ w w1); assumption|].
      destruct (shape0 df =? 0).
      * apply IHrec in H. eapply fs_extends_trans; [|exact H].
        apply fs_extends_same; reflexivity.
      * rewrite export_address_run in H. inversion H; subst.
        apply export_address_fs_extends. intros a. apply In_py_slice.
Qed.

Lemma for_each_fs_extends {A : Type} (xs : list A) (body : A -> M unit)
    extract_dir array_address :
  (forall x w w', body x w = Done tt w' -> fs_extends extract_dir array_address w w') ->
  forall w w', for_each xs body w = Done tt w' ->
               fs_extends extract_dir array_address w w'.
Proof.
  intros Hbody. induction xs as [|x xs IH]; intros w w' H; cbn [for_each] in H.
  - inversion H; subst. apply fs_extends_refl.
  - rewrite bind_run in H. destruct (body x w) as [[] w1| |] eqn:Hx; try discriminate.
    eapply fs_extends_trans; [apply (Hbody x w w1 Hx) | apply IH; exact H].
Qed.

Lemma extract_transactions_net_fs_extends depth fuel self extract_dir array_address
    network w w' :
  extract_transactions_net sdk_query depth fuel self extract_dir array_address network w
    = Done tt w' ->
  fs_extends extract_dir array_address w w'.
Proof.
  unfold extract_transactions_net. rewrite bind_run. cbn [emit]. rewrite bind_run.
  destruct (py_divmod _ _) as [qr|e]; cbv beta iota delta [lift mret M_ret raise];
    [|discriminate].
  intros H.
  apply (fs_extends_trans _ _ w (log_event (PrintExtractingNetwork network) w));
    [apply fs_extends_same; reflexivity|].
  revert H. apply for_each_fs_extends. clear w w'. intros i w w'.
  unfold extract_batch, mbind, M_bind, emit. cbn beta iota.
  match goal with
  | |- context [get_transactions _ ?f ?a ?sl ?n ?w0] =>
      destruct (get_transactions sdk_query f a sl n w0) as [df w1| |] eqn:H1
  end; try discriminate.
  apply get_transactions_fs in H1. destruct H1 as [Hd Hf]. intros H.
  eapply fs_extends_trans; [apply (fs_extends_same _ _ w w1); assumption|].
  unfold route_batch in H.
  destruct ((shape0 df =? 0) || py_eq (shape df) (PyInt (MAX_ROWS self)))%bool.
  - apply (proj1 (retry_fs_extends self array_address network extract_dir fuel depth)) in H.
    exact H.
  - rewrite export_address_run in H. inversion H; subst.
    apply export_address_fs_extends. intros a. apply In_py_slice.
Qed.

(** X15: the extraction only adds to the file system, and only files of
    the addresses it is given. After any returning run of
    [extract_transactions], every directory and every file that existed
    before is still there, and every path that is not
    [extract_dir/network/{address}_tx.csv] for an address of the list
    holds what it held before. *)
Theorem extract_transactions_fs_extends depth fuel self extract_dir array_address w w' :
  extract_transactions sdk_query depth fuel self extract_dir array_address w = Done tt w' ->
  dirs w ⊆ dirs w' /\
  (forall p, is_Some (files w !! p) -> is_Some (files w' !! p)) /\
  (forall p,
     (forall network address,
        In address array_address ->
        p <> os_path_join (os_path_join extract_dir network) (address +:+ "_tx.csv")) ->
     files w' !! p = files w !! p).
Proof.
  unfold extract_transactions.
  apply (for_each_fs_extends _ _ extract_dir array_address).
  intros network w0 w1. apply extract_transactions_net_fs_extends.
Qed.

(** X16: an unsupported network is reported at the first batch. With a
    cap [M > 0] and at least one address, [extract_transactions_net] on a
    network outside the six raises [Exception("Network not supported")]
    after its first line and the line of the first batch, before any
    query or file. *)
Theorem unsupported_network_raises_at_first_batch
    depth fuel self extract_dir array_address network w :
  ~ supported_network network ->
  0 < MAX_ADDRESS self ->
  array_address <> [] ->
  extract_transactions_net sdk_query depth fuel self extract_dir array_address network w =
  Raised (Exception "Network not supported")
    (log_event (PrintBatchRange 0 (MAX_ADDRESS self))
       (log_event (PrintExtractingNetwork network) w)).
Proof.
  intros Hnot HM Hne.
  rewrite extract_transactions_net_run by exact HM.
  set (L := Z.of_nat (length array_address)).
  pose proof (batch_count_ceil L (MAX_ADDRESS self) HM) as Hq.
  assert (HL : 0 < L).
  { subst L. destruct array_address; [contradiction | cbn [length]; lia]. }
  assert (Hq1 : 1 <= batch_count L (MAX_ADDRESS self)) by nia.
  unfold py_range.
  destruct (Z.to_nat (batch_count L (MAX_ADDRESS self))) as [|n] eqn:En; [lia|].
  cbn [seq map for_each]. rewrite bind_run.
  unfold extract_batch, mbind, M_bind, emit. cbn beta iota.
  unfold get_transactions.
  rewrite get_transactions_sql_unsupported by exact Hnot.
  replace ((Z.of_nat 0 + 1) * MAX_ADDRESS self) with (MAX_ADDRESS self) by lia.
  reflexivity.
Qed.

End Properties.













(** * The statements at sample inputs *)

Lemma capped_batch_is_exported_witness :
  nrows capped_frame = MAX_ROWS (init "key") /\
  route_batch empty_service 0 0 (init "key") "out" ["0xaaa"] "ethereum" 0 100 capped_frame =
  export_address capped_frame (py_slice ["0xaaa"] 0 100) "out" "ethereum".
Proof.
  assert (H : nrows capped_frame = MAX_ROWS (init "key")).
  { unfold nrows, capped_frame, MAX_ROWS. rewrite repeat_length. apply Z2Nat.id. lia. }
  split; [exact H|].
  apply (capped_batch_is_exported empty_service 0 0 (init "key") "out" ["0xaaa"]
           "ethereum" 0 100 capped_frame H).
Defined.

(** The retry on a single address without rows ends: with room for 1000
    nested calls it raises [RecursionError], so it is not the case that
    it never terminates. *)
Lemma single_address_retry_terminates :
  get_transactions_sql (init "key") (py_slice ["0xaaa"] 0 (0 + 1)) "ethereum" =
    Ok (get_eth_transactions_sql_query (init "key") ["0xaaa"] 0) /\
  empty_for empty_service (get_eth_transactions_sql_query (init "key") ["0xaaa"] 0) /\
  match extract_transactions_between_rec empty_service 1000 1 (init "key") ["0xaaa"]
          0 (0 + 1) "ethereum" "out" empty_world with
  | Raised e _ => e = recursion_error
  | _ => False
  end /\
  ~ (forall fuel,
       extract_transactions_between_rec empty_service 1000 fuel (init "key") ["0xaaa"]
         0 (0 + 1) "ethereum" "out" empty_world = OutOfFuel).
Proof.
  assert (Hrun : match extract_transactions_between_rec empty_service 1000 1 (init "key")
                         ["0xaaa"] 0 (0 + 1) "ethereum" "out" empty_world with
                 | Raised e _ => e = recursion_error
                 | _ => False
                 end) by (vm_compute; reflexivity).
  split; [reflexivity|]. split.
  { intros st call _. unfold empty_service, paged_service. cbn.
    destruct (Z.to_nat (q_page_number call - 1)); reflexivity. }
  split; [exact Hrun|].
  intros Hno. rewrite (Hno 1%nat) in Hrun. exact Hrun.
Qed.

Lemma single_address_retry_ends_in_recursion_error_witness :
  get_transactions_sql (init "key") (py_slice ["0xaaa"; "0xbbb"] 1 (1 + 1)) "ethereum" =
    Ok (get_eth_transactions_sql_query (init "key") ["0xbbb"] 0) /\
  empty_for lonely_service (get_eth_transactions_sql_query (init "key") ["0xbbb"] 0) /\
  forall depth fuel w,
    (extract_transactions_between_rec lonely_service depth fuel (init "key")
       ["0xaaa"; "0xbbb"] 1 (1 + 1) "ethereum" "out" w = OutOfFuel \/
     exists w',
       extract_transactions_between_rec lonely_service depth fuel (init "key")
         ["0xaaa"; "0xbbb"] 1 (1 + 1) "ethereum" "out" w = Raised recursion_error w') /\
    (extract_transactions_rec lonely_service depth fuel (init "key")
       ["0xaaa"; "0xbbb"] 1 (1 + 1) "ethereum" "out" w = OutOfFuel \/
     exists w',
       extract_transactions_rec lonely_service depth fuel (init "key")
         ["0xaaa"; "0xbbb"] 1 (1 + 1) "ethereum" "out" w = Raised recursion_error w').
Proof.
  assert (Hsql : get_transactions_sql (init "key") (py_slice ["0xaaa"; "0xbbb"] 1 (1 + 1))
                   "ethereum" =
                 Ok (get_eth_transactions_sql_query (init "key") ["0xbbb"] 0))
    by reflexivity.
  assert (Hempty : empty_for lonely_service
                     (get_eth_transactions_sql_query (init "key") ["0xbbb"] 0)).
  { intros st call Hcall. unfold lonely_service. rewrite Hcall. reflexivity. }
  split; [exact Hsql|]. split; [exact Hempty|].
  apply (proj1 (proj2 (single_address_retry_ends_in_recursion_error lonely_service
                         (init "key") ["0xaaa"; "0xbbb"] "ethereum" "out" 1 _
                         Hsql Hempty))).
Defined.

Lemma execute_query_concatenates_pages_witness :
  fetch_pages three_rows_service 2 small_api "q" 1 empty_world =
    ([[sample_row "0xaaa" "0xbbb"; sample_row "0xbbb" "0xaaa"];
      [sample_row "0xaaa" "0xccc"]], three_rows_world) /\
  execute_query three_rows_service 2 small_api "q" empty_world =
    Done three_rows_frame three_rows_world.
Proof.
  assert (Hf : fetch_pages three_rows_service 2 small_api "q" 1 empty_world =
               ([[sample_row "0xaaa" "0xbbb"; sample_row "0xbbb" "0xaaa"];
                 [sample_row "0xaaa" "0xccc"]], three_rows_world))
    by (vm_compute; reflexivity).
  split; [exact Hf|].
  apply (execute_query_concatenates_pages three_rows_service small_api "q" 1
           empty_world _ _ 2 Hf).
  - intros k df Hk Hlook. destruct k as [|k]; [|lia].
    cbn in Hlook. inversion Hlook. reflexivity.
  - intros df Hlook. cbn in Hlook. inversion Hlook. vm_compute. discriminate.
  - lia.
Defined.

(** One address and the default cap of 100: the range of the only batch
    is the pair (0, 100), not the pair (0, 1) clamped to the list, and it
    is the range (0, 100) that the Range Splitter bisects, at 50. *)
Lemma batch_range_is_not_clamped :
  Z.of_nat (length ["0xaaa"]) = 1 /\ MAX_ADDRESS (init "key") = 100 /\
  match extract_transactions_net empty_service 2 1 (init "key") "out" ["0xaaa"]
          "ethereum" empty_world with
  | Raised e w' =>
      e = recursion_error /\
      printed_batch_ranges (trace w') = [(0, 100)] /\
      printed_retry_ranges (trace w') = [(0, 50)]
  | _ => False
  end /\
  (0, 100) <> (0 * 100, Z.min ((0 + 1) * 100) 1).
Proof.
  split; [reflexivity|]. split; [reflexivity|].
  split; [vm_compute; repeat split | discriminate].
Qed.

Lemma extract_transactions_net_batches_witness :
  0 < MAX_ADDRESS small_api /\
  exists q,
    (q - 1) * 1 < 2 <= q * 1 /\
    extract_transactions_net three_rows_service 3 4 small_api "out" ["0xaaa"; "0xddd"]
      "ethereum" empty_world =
    for_each (py_range q)
      (extract_batch three_rows_service 3 4 small_api "out" ["0xaaa"; "0xddd"] "ethereum")
      (log_event (PrintExtractingNetwork "ethereum") empty_world) /\
    (exists w',
       extract_transactions_net three_rows_service 3 4 small_api "out" ["0xaaa"; "0xddd"]
         "ethereum" empty_world = Done tt w' /\
       printed_batch_ranges (trace w') = [(0, 1); (1, 2)]) /\
    concat (map (fun i => py_slice ["0xaaa"; "0xddd"] (i * 1) ((i + 1) * 1)) (py_range q))
      = ["0xaaa"; "0xddd"].
Proof.
  assert (HM : 0 < MAX_ADDRESS small_api) by (cbn; lia).
  split; [exact HM|].
  destruct (extract_transactions_net_batches three_rows_service 3 4 small_api "out"
              ["0xaaa"; "0xddd"] "ethereum" empty_world HM)
    as (q & Hq & Hrun & _ & _ & _ & Hprint & _ & _ & _ & Hcat).
  exists q. split; [exact Hq|]. split; [exact Hrun|]. split; [|exact Hcat].
  assert (Hq2 : q = 2) by (cbn in Hq; lia).
  eexists. split; [vm_compute; reflexivity|].
  destruct (Hprint _ ltac:(vm_compute; reflexivity)) as (new & Ht & Hnew).
  cbn [trace empty_world app] in Ht. subst q. rewrite <- Ht in Hnew.
  exact Hnew.
Defined.

Lemma extract_transactions_rec_bisects_witness :
  0 <= 0 <= 3 /\
  py_slice ["0xaaa"; "0xbbb"; "0xccc"] 0 ((0 + 3) / 2)
    ++ py_slice ["0xaaa"; "0xbbb"; "0xccc"] ((0 + 3) / 2) 3 =
  py_slice ["0xaaa"; "0xbbb"; "0xccc"] 0 3.
Proof.
  assert (H : 0 <= 0 <= 3) by lia.
  split; [exact H|].
  apply (proj1 (proj2 (proj2 (extract_transactions_rec_bisects empty_service 0 0
           (init "key") ["0xaaa"; "0xbbb"; "0xccc"] 0 3 "ethereum" "out" empty_world)))).
  exact H.
Defined.

Lemma export_address_per_address_witness :
  select_address three_rows_frame "0xccc" <> [] /\
  exists w0 w1 : @World unit,
    export_address three_rows_frame ["0xddd"] "out" "ethereum" empty_world = Done tt w0 /\
    export_one three_rows_frame "out" "ethereum" "0xccc" w0 = Done tt w1 /\
    files w1 !! "out/ethereum/0xccc_tx.csv" = Some [sample_row "0xaaa" "0xccc"].
Proof.
  assert (Hsel : select_address three_rows_frame "0xccc" <> []) by (vm_compute; discriminate).
  split; [exact Hsel|].
  destruct (export_address_per_address (Svc := unit) three_rows_frame ["0xddd"] "0xccc" []
              "out" "ethereum" empty_world)
    as (_ & w0 & w1 & Hpre & Hone & _ & Hwrite & _).
  exists w0, w1. split; [exact Hpre|]. split; [exact Hone|].
  exact (proj1 (proj2 (Hwrite Hsel))).
Defined.

Lemma execute_query_warns_iff_capped_witness :
  fetch_pages capped_service 11 (init "key") "q" 1 empty_world =
    (capped_pages, capped_world) /\
  nrows (concat capped_pages) = 1000000 /\
  exists w',
    execute_query capped_service 11 (init "key") "q" empty_world =
      Done (concat capped_pages) w' /\
    trace w' = trace capped_world ++ [PrintTruncationWarning].
Proof.
  assert (Hpage : nrows full_page = 100000).
  { unfold nrows, full_page. rewrite repeat_length. apply Z2Nat.id. lia. }
  assert (Hf : fetch_pages capped_service 11 (init "key") "q" 1 empty_world =
               (capped_pages, capped_world)).
  { with_strategy opaque [full_page] (lazy; reflexivity). }
  assert (Hrows : nrows (concat capped_pages) = 1000000).
  { unfold nrows, capped_pages in *.
    with_strategy opaque [full_page] (cbn [repeat app concat]).
    rewrite !length_app. cbn [length]. lia. }
  split; [exact Hf|]. split; [exact Hrows|].
  destruct (proj1 (proj2 (execute_query_warns_iff_capped capped_service 11 (init "key")
                            "q" empty_world)) 10%nat capped_pages capped_world Hf)
    as (w' & Hrun & _ & Ht).
  - intros k df Hk Hlook. unfold capped_pages in Hlook.
    with_strategy opaque [full_page] (cbn [repeat app] in Hlook).
    do 10 (destruct k as [|k]; [injection Hlook as <-; exact Hpage|]). lia.
  - intros df Hlook. unfold capped_pages in Hlook.
    with_strategy opaque [full_page] (cbn [repeat app] in Hlook).
    injection Hlook as <-. discriminate.
  - lia.
  - exists w'. split; [exact Hrun|].
    rewrite Ht, Hrows. reflexivity.
Defined.

Lemma invalid_info_type_is_not_raised_witness :
  "foo" <> "label" /\ "foo" <> "tag" /\
  get_cross_chain_info_sql_query (init "key") ["0xaaa"] "foo" 0 =
    Err (UnboundLocalError "table_name") /\
  get_cross_chain_info_sql_query (init "key") ["0xaaa"] "foo" 0 <>
    Err (Exception "Invalid info type").
Proof.
  assert (Hl : "foo" <> "label") by discriminate.
  assert (Ht : "foo" <> "tag") by discriminate.
  split; [exact Hl|]. split; [exact Ht|].
  apply (invalid_info_type_is_not_raised (init "key") ["0xaaa"] "foo" 0 Hl Ht).
Defined.

(** ** The further properties at sample inputs *)

Lemma get_transactions_unsupported_network_witness :
  ~ supported_network "bitcoin" /\
  get_transactions three_rows_service 5 small_api ["0xaaa"] "bitcoin" empty_world =
  Raised (Exception "Network not supported") empty_world.
Proof.
  assert (H : ~ supported_network "bitcoin").
  { unfold supported_network. cbn [In].
    intros [H|[H|[H|[H|[H|[H|[]]]]]]]; discriminate. }
  split; [exact H|].
  apply (get_transactions_unsupported_network three_rows_service 5 small_api ["0xaaa"]
           "bitcoin" empty_world H).
Defined.

Lemma zero_batch_cap_raises_witness :
  MAX_ADDRESS (__init__ "key" 100000 4 1 0 60 true 1) = 0 /\
  extract_transactions three_rows_service 5 5 (__init__ "key" 100000 4 1 0 60 true 1)
    "out" ["0xaaa"] empty_world =
  Raised (ZeroDivisionError "integer division or modulo by zero")
    (log_event (PrintExtractingNetwork "ethereum") empty_world).
Proof.
  assert (H : MAX_ADDRESS (__init__ "key" 100000 4 1 0 60 true 1) = 0) by reflexivity.
  split; [exact H|].
  apply (proj2 (zero_batch_cap_raises three_rows_service 5 5
                  (__init__ "key" 100000 4 1 0 60 true 1) "out" ["0xaaa"] "ethereum"
                  empty_world H)).
Defined.

Lemma no_batch_without_addresses_or_with_negative_cap_witness :
  MAX_ADDRESS (__init__ "key" 100000 4 1 (-3) 60 true 1) < 0 /\
  extract_transactions_net three_rows_service 5 5
    (__init__ "key" 100000 4 1 (-3) 60 true 1)
    "out" ["0xaaa"; "0xbbb"] "bitcoin" empty_world =
  Done tt (log_event (PrintExtractingNetwork "bitcoin") empty_world).
Proof.
  assert (H : MAX_ADDRESS (__init__ "key" 100000 4 1 (-3) 60 true 1) < 0) by (cbn; lia).
  split; [exact H|].
  apply (no_batch_without_addresses_or_with_negative_cap three_rows_service 5 5
           (__init__ "key" 100000 4 1 (-3) 60 true 1) "out" ["0xaaa"; "0xbbb"] "bitcoin"
           empty_world (or_intror H)).
Defined.

Lemma extract_transactions_raises_only_recursion_error_witness :
  MAX_ADDRESS small_api <> 0 /\
  (extract_transactions failing_service 7 1 small_api "out" ["0xaaa"] empty_world
     = OutOfFuel \/
   (exists w',
      extract_transactions failing_service 7 1 small_api "out" ["0xaaa"] empty_world
      = Done tt w') \/
   exists w',
     extract_transactions failing_service 7 1 small_api "out" ["0xaaa"] empty_world
     = Raised recursion_error w').
Proof.
  assert (H : MAX_ADDRESS small_api <> 0) by (cbn; lia).
  split; [exact H|].
  apply (extract_transactions_raises_only_recursion_error failing_service 7 1 small_api
           "out" ["0xaaa"] empty_world H).
Defined.

Lemma export_address_writes_witness :
  exists w',
    export_address three_rows_frame ["0xddd"; "0xccc"] "out" "ethereum" empty_world
      = Done tt w' /\
    exists new,
      trace w' = trace empty_world ++ new /\
      csv_write_events new =
        [("out/ethereum/0xccc_tx.csv", [sample_row "0xaaa" "0xccc"])].
Proof.
  eexists. split; [vm_compute; reflexivity|].
  destruct (export_address_writes (Svc := unit) three_rows_frame ["0xddd"; "0xccc"]
              "out" "ethereum" empty_world _ ltac:(vm_compute; reflexivity))
    as (new & Ht & Hw & _).
  exists new. split; [exact Ht | exact Hw].
Defined.

Lemma export_address_preserves_witness :
  exists w',
    export_address three_rows_frame ["0xddd"; "0xccc"] "out" "ethereum" empty_world
      = Done tt w' /\
    dirs empty_world ⊆ dirs w' /\
    files w' !! "out/ethereum/0xddd_tx.csv" = files empty_world !! "out/ethereum/0xddd_tx.csv".
Proof.
  eexists. split; [vm_compute; reflexivity|].
  destruct (export_address_preserves (Svc := unit) three_rows_frame ["0xddd"; "0xccc"]
              "out" "ethereum" empty_world _ ltac:(vm_compute; reflexivity))
    as (Hd & _ & Hf).
  split; [exact Hd|]. apply Hf.
  intros address [<-|[<-|[]]] Hsel.
  - exfalso. apply Hsel. reflexivity.
  - discriminate.
Defined.

Lemma execute_query_full_pages_never_returns_witness :
  (forall st call,
     q_sql call = "q" ->
     exists rs, snd (two_rows_service st call) = Ok rs /\
                nrows (records rs) = PAGE_SIZE small_api) /\
  forall fuel w, execute_query two_rows_service fuel small_api "q" w = OutOfFuel.
Proof.
  assert (H : forall st call,
            q_sql call = "q" ->
            exists rs, snd (two_rows_service st call) = Ok rs /\
                       nrows (records rs) = PAGE_SIZE small_api).
  { intros st call _. eexists. split; reflexivity. }
  split; [exact H|].
  apply (execute_query_full_pages_never_returns two_rows_service small_api "q" H).
Defined.

Lemma execute_query_returns_fetched_pages_witness :
  execute_query three_rows_service 2 small_api "q" empty_world =
    Done three_rows_frame three_rows_world /\
  exists (N : nat) pages wN,
    fetch_pages three_rows_service (S N) small_api "q" 1 empty_world = (pages, wN) /\
    three_rows_frame = concat pages /\
    (N < 2)%nat /\
    nrows three_rows_frame = Z.of_nat N * PAGE_SIZE small_api + nrows (List.last pages []).
Proof.
  assert (H : execute_query three_rows_service 2 small_api "q" empty_world =
              Done three_rows_frame three_rows_world) by (vm_compute; reflexivity).
  split; [exact H|].
  destruct (execute_query_returns_fetched_pages three_rows_service 2 small_api "q"
              empty_world three_rows_frame three_rows_world H)
    as (N & pages & wN & Hf & Hdf & _ & Hlt & _ & _ & Hrows & _).
  exists N, pages, wN. auto.
Defined.

Lemma retry_past_end_never_returns_witness :
  get_transactions_sql (init "key") [] "ethereum" =
    Ok (get_eth_transactions_sql_query (init "key") [] 0) /\
  empty_for no_address_service (get_eth_transactions_sql_query (init "key") [] 0) /\
  forall depth fuel w,
    extract_transactions_rec no_address_service depth fuel (init "key") ["0xaaa"] 0 100
      "ethereum" "out" w = OutOfFuel \/
    exists w',
      extract_transactions_rec no_address_service depth fuel (init "key") ["0xaaa"] 0 100
        "ethereum" "out" w = Raised recursion_error w'.
Proof.
  assert (Hsql : get_transactions_sql (init "key") [] "ethereum" =
                 Ok (get_eth_transactions_sql_query (init "key") [] 0)) by reflexivity.
  assert (Hempty : empty_for no_address_service
                     (get_eth_transactions_sql_query (init "key") [] 0)).
  { intros st call Hcall. unfold no_address_service. rewrite Hcall. reflexivity. }
  split; [exact Hsql|]. split; [exact Hempty|].
  intros depth fuel w.
  apply (proj1 (proj2 (retry_past_end_never_returns no_address_service (init "key")
                         ["0xaaa"] "ethereum" "out" _ Hsql Hempty)) depth fuel 0 100 w).
  - vm_compute. discriminate.
  - vm_compute. discriminate.
Defined.

Lemma batch_slices_within_cap_witness :
  0 < MAX_ADDRESS small_api /\
  In 2 (py_range (batch_count 3 (MAX_ADDRESS small_api))) /\
  1 <= Z.of_nat (length (py_slice ["0xaaa"; "0xbbb"; "0xccc"]
                           (2 * MAX_ADDRESS small_api) ((2 + 1) * MAX_ADDRESS small_api)))
    <= MAX_ADDRESS small_api.
Proof.
  assert (HM : 0 < MAX_ADDRESS small_api) by (cbn; lia).
  assert (Hi : In 2 (py_range (batch_count 3 (MAX_ADDRESS small_api))))
    by (vm_compute; tauto).
  split; [exact HM|]. split; [exact Hi|].
  apply (proj2 (batch_slices_within_cap three_rows_service 3 4 small_api "out"
                  ["0xaaa"; "0xbbb"; "0xccc"] "ethereum" empty_world HM) 2 Hi).
Defined.

Lemma extract_transactions_returns_without_retry_witness :
  (forall st call,
     exists rs, snd (one_row_service st call) = Ok rs /\
                records rs <> [] /\ nrows (records rs) <> PAGE_SIZE (init "key")) /\
  MAX_ADDRESS (init "key") <> 0 /\
  exists w',
    extract_transactions one_row_service 0 1 (init "key") "out" ["0xaaa"; "0xccc"]
      empty_world = Done tt w'.
Proof.
  assert (H : forall st call,
            exists rs, snd (one_row_service st call) = Ok rs /\
                       records rs <> [] /\
                       nrows (records rs) <> PAGE_SIZE (init "key")).
  { intros st call. eexists. split; [reflexivity|]. split; [discriminate|].
    vm_compute. discriminate. }
  assert (HM : MAX_ADDRESS (init "key") <> 0) by (cbn; lia).
  split; [exact H|]. split; [exact HM|].
  apply (extract_transactions_returns_without_retry one_row_service (init "key") H 0 0
           "out" ["0xaaa"; "0xccc"] empty_world HM).
Defined.

Lemma extract_transactions_fs_extends_witness :
  exists w',
    extract_transactions one_row_service 0 1 small_api "out" ["0xccc"] empty_world
      = Done tt w' /\
    dirs empty_world ⊆ dirs w' /\
    (forall p, is_Some (files empty_world !! p) -> is_Some (files w' !! p)) /\
    (forall p,
       (forall network address,
          In address ["0xccc"] ->
          p <> os_path_join (os_path_join "out" network) (address +:+ "_tx.csv")) ->
       files w' !! p = files empty_world !! p).
Proof.
  eexists. split; [vm_compute; reflexivity|].
  apply (extract_transactions_fs_extends one_row_service 0 1 small_api "out" ["0xccc"]
           empty_world).
  vm_compute. reflexivity.
Defined.

Lemma unsupported_network_raises_at_first_batch_witness :
  ~ supported_network "bitcoin" /\
  0 < MAX_ADDRESS small_api /\
  ["0xaaa"] <> [] /\
  extract_transactions_net three_rows_service 5 5 small_api "out" ["0xaaa"] "bitcoin"
    empty_world =
  Raised (Exception "Network not supported")
    (log_event (PrintBatchRange 0 (MAX_ADDRESS small_api))
       (log_event (PrintExtractingNetwork "bitcoin") empty_world)).
Proof.
  assert (Hnot : ~ supported_network "bitcoin").
  { unfold supported_network. cbn [In].
    intros [H|[H|[H|[H|[H|[H|[]]]]]]]; discriminate. }
  assert (HM : 0 < MAX_ADDRESS small_api) by (cbn; lia).
  assert (Hne : ["0xaaa"] <> ([] : list string)) by discriminate.
  split; [exact Hnot|]. split; [exact HM|]. split; [exact Hne|].
  apply (unsupported_network_raises_at_first_batch three_rows_service 5 5 small_api "out"
           ["0xaaa"] "bitcoin" empty_world Hnot HM Hne).
Defined.
